(** * epub_to_text: a shallow embedding of [src/epub_to_text.py]

    The program reads one EPUB container, strips the markup of each
    document item, numbers the items that look like chapters and writes
    the joined fragments to a text file.

    Python values are modelled as follows.
    - [str] is a list of Unicode code points ([N]); [len] is [length].
    - [int] is [Z].
    - exceptions are values of [exn]; a computation that may raise has a
      result in [exn + A].
    - the file system is a finite map from resolved paths to entries and
      is threaded explicitly through the code that touches it.
    - the collaborators the program imports (the UTF-8 codec, [str.lower],
      the HTML parser behind [BeautifulSoup(_, 'html.parser')] and the
      operating system's path resolution) and the two things the run time
      decides ([sys.stdout], which may refuse a line, and [os.linesep])
      are the fields of the class [Platform]; every theorem holds for each
      instance of it. *)

From Stdlib Require Import ZArith NArith Ascii DecimalString Lia.
From Stdlib Require DecimalPos DecimalZ.
From stdpp Require Import gmap list strings.

Set Default Proof Using "Type".

(* ===================================================================== *)
(** * Python strings *)
(* ===================================================================== *)

Abbreviation char := N (only parsing).
Abbreviation str := (list N) (only parsing).

(** An ASCII literal of the source, as a [str]. *)
Definition py (s : String.string) : str :=
  map N_of_ascii (String.list_ascii_of_string s).
Arguments py s%_string.

Definition nl : char := 10%N.       (* '\n' *)
Definition space : char := 32%N.    (* ' '  *)

(** [Py_UNICODE_ISSPACE]: the characters [\s] matches in a [str] pattern and
    the ones [str.strip()] removes. *)
Definition is_space (c : char) : bool :=
  ((9 <=? c) && (c <=? 13)
   || (28 <=? c) && (c <=? 32)
   || (c =? 133) || (c =? 160) || (c =? 5760)
   || (8192 <=? c) && (c <=? 8202)
   || (c =? 8232) || (c =? 8233) || (c =? 8239) || (c =? 8287)
   || (c =? 12288))%N.

(** [str.lstrip()], [str.rstrip()] and [str.strip()] without argument. *)
Fixpoint lstrip (s : str) : str :=
  match s with
  | [] => []
  | c :: s' => if is_space c then lstrip s' else s
  end.

Definition rstrip (s : str) : str := rev (lstrip (rev s)).

Definition strip (s : str) : str := rstrip (lstrip s).

(** [sep.join(parts)]. *)
Fixpoint join (sep : str) (parts : list str) : str :=
  match parts with
  | [] => []
  | [p] => p
  | p :: rest => p ++ sep ++ join sep rest
  end.

(** [str(n)] for an [int]. *)
Definition str_of_int (n : Z) : str :=
  py (NilZero.string_of_int (Z.to_int n)).

(** [w in s] for strings: [w] occurs in [s] as a contiguous substring. *)
Definition contains (w s : str) : Prop :=
  exists pre post, s = pre ++ w ++ post.

Fixpoint starts_with (w s : str) : bool :=
  match w, s with
  | [], _ => true
  | a :: w', b :: s' => (b =? a)%N && starts_with w' s'
  | _ :: _, [] => false
  end.

(* ===================================================================== *)
(** * The fragment of [re] the program uses *)
(* ===================================================================== *)

(** Patterns.  The matcher is a backtracking matcher with greedy
    repetition, as [re] is: [m r s k] matches [r] at the front of [s] and
    hands the rest of the input to the continuation [k]; the first
    alternative or the longest repetition that lets [k] succeed wins. *)
Inductive regex : Type :=
| Eps
| Chr (c : char)
| Cls (p : char -> bool)
| Cat (r1 r2 : regex)
| Alt (r1 r2 : regex)
| Star (r : regex).

Fixpoint star_loop (body : str -> (str -> option str) -> option str)
    (k : str -> option str) (fuel : nat) (s : str) : option str :=
  match fuel with
  | O => k s
  | S fuel' =>
      match body s (fun s' => if (length s' <? length s)%nat
                              then star_loop body k fuel' s' else None) with
      | Some e => Some e
      | None => k s
      end
  end.

Fixpoint m (r : regex) (s : str) (k : str -> option str) : option str :=
  match r with
  | Eps => k s
  | Chr c =>
      match s with
      | x :: s' => if (x =? c)%N then k s' else None
      | [] => None
      end
  | Cls p =>
      match s with
      | x :: s' => if p x then k s' else None
      | [] => None
      end
  | Cat r1 r2 => m r1 s (fun s' => m r2 s' k)
  | Alt r1 r2 =>
      match m r1 s k with
      | Some e => Some e
      | None => m r2 s k
      end
  | Star r1 => star_loop (m r1) k (length s) s
  end.

(** The match of [r] anchored at the front of [s]: the input left after it. *)
Definition match_at (r : regex) (s : str) : option str := m r s Some.

(** [bool(re.search(r, s))]. *)
Fixpoint re_search (r : regex) (s : str) : bool :=
  match match_at r s with
  | Some _ => true
  | None =>
      match s with
      | [] => false
      | _ :: s' => re_search r s'
      end
  end.

(** [re.sub(r, repl, s)] for a literal replacement: the leftmost
    non-overlapping matches are replaced, scanning left to right. *)
Fixpoint sub_from (fuel : nat) (r : regex) (repl s : str) : str :=
  match fuel with
  | O => s
  | S fuel' =>
      match match_at r s with
      | Some rest =>
          if (length rest <? length s)%nat
          then repl ++ sub_from fuel' r repl rest
          else match s with
               | [] => repl
               | c :: s' => repl ++ c :: sub_from fuel' r repl s'
               end
      | None =>
          match s with
          | [] => []
          | c :: s' => c :: sub_from fuel' r repl s'
          end
      end
  end.

Definition re_sub (r : regex) (repl s : str) : str :=
  sub_from (S (length s)) r repl s.

(** A literal word as a pattern. *)
Definition lit (w : str) : regex := foldr (fun c r => Cat (Chr c) r) Eps w.

Definition Plus (r : regex) : regex := Cat r (Star r).

(** [r'chapter|prologue|epilogue'] *)
Definition chapter_re : regex :=
  Alt (lit (py "chapter")) (Alt (lit (py "prologue")) (lit (py "epilogue"))).

(** [r'\s+'] *)
Definition ws_run_re : regex := Plus (Cls is_space).

(** [r'\n\s*\n'] *)
Definition para_break_re : regex :=
  Cat (Chr nl) (Cat (Star (Cls is_space)) (Chr nl)).

(** The three keywords of the chapter heuristic. *)
Definition chapter_keywords : list str :=
  [py "chapter"; py "prologue"; py "epilogue"].

(* ===================================================================== *)
(** * Exceptions *)
(* ===================================================================== *)

(** The exception classes that occur; all of them derive from
    [Exception], so the handler of [main] catches each. *)
Inductive exn_class : Type :=
| FileNotFoundError
| IndexError
| UnicodeDecodeError
| UnicodeEncodeError
| BadZipFile
| OSError
| IsADirectoryError
| NotADirectoryError
| FileExistsError.

(** An exception object: its class and [str(e)]. *)
Record exn : Type := Exn { exn_kind : exn_class; exn_str : str }.

Definition res (A : Type) : Type := exn + A.

Definition res_bind {A B} (x : res A) (k : A -> res B) : res B :=
  match x with
  | inl e => inl e
  | inr a => k a
  end.

Notation "'let?' x ':=' e 'in' k" := (res_bind e (fun x => k))
  (at level 10, x pattern, e at level 100, k at level 200).

(** A [for] loop whose body may raise; [continue] is the body returning the
    state it was given. *)
Fixpoint for_each {S A} (body : S -> A -> res S) (st : S) (l : list A)
    : res S :=
  match l with
  | [] => inr st
  | a :: l' =>
      match body st a with
      | inl e => inl e
      | inr st' => for_each body st' l'
      end
  end.

(* ===================================================================== *)
(** * The parse tree of [bs4] *)
(* ===================================================================== *)

(** A page element: a [NavigableString] that [get_text] returns ([Text]),
    a string it leaves out such as a comment or a doctype ([Hidden]), or a
    [Tag] with its attributes and children. *)
#[warnings="-register-all"]
Inductive node : Type :=
| Text (s : str)
| Hidden (s : str)
| Element (tag : str) (attrs : list (str * str)) (children : list node).

(** [tag.get_text()]: the text strings below the element, in document
    order. *)
Fixpoint get_text (n : node) : str :=
  match n with
  | Text s => s
  | Hidden _ => []
  | Element _ _ children => concat (map get_text children)
  end.

(** [soup.get_text()] on the whole document. *)
Definition soup_get_text (soup : list node) : str :=
  concat (map get_text soup).

Definition has_tag (tags : list str) (tag : str) : bool :=
  bool_decide (tag ∈ tags).

(** [find_all(tags)]: every descendant element whose name is one of
    [tags], in document order, an element before the elements inside it. *)
Fixpoint find_all (tags : list str) (n : node) : list node :=
  match n with
  | Text _ => []
  | Hidden _ => []
  | Element tag _ children =>
      (if has_tag tags tag then [n] else [])
        ++ concat (map (find_all tags) children)
  end.

Definition soup_find_all (tags : list str) (soup : list node) : list node :=
  concat (map (find_all tags) soup).

(** The tree after [for element in soup(tags): element.decompose()]: every
    element named in [tags] is gone, with all that is below it. *)
Fixpoint decompose (tags : list str) (n : node) : list node :=
  match n with
  | Text _ => [n]
  | Hidden _ => [n]
  | Element tag attrs children =>
      if has_tag tags tag then []
      else [Element tag attrs (concat (map (decompose tags) children))]
  end.

Definition soup_decompose (tags : list str) (soup : list node) : list node :=
  concat (map (decompose tags) soup).

(* ===================================================================== *)
(** * The book and the world outside the program *)
(* ===================================================================== *)

(** [ebooklib.ITEM_DOCUMENT] *)
Definition ITEM_DOCUMENT : Z := 9.

(** An item of the book: [get_type()] and [get_content()]. *)
Record EpubItem : Type := {
  item_type : Z;
  item_content : list Byte.byte
}.

(** What the program reads of a book: [get_metadata('DC', 'title')], a
    list of pairs of a value and its attributes, and [get_items()]. *)
Record EpubBook : Type := {
  dc_title : list (str * list (str * str));
  book_items : list EpubItem
}.

(** What a path names.  A file that [epub.read_epub] accepts is given by
    the book it denotes and its size in bytes; every other file by the
    text it holds. *)
Inductive entry : Type :=
| Dir
| TextFile (data : str)
| EpubFile (book : EpubBook) (size : Z).

(** The state of the world: the file tree; how many more characters the
    device takes before a write fails with [ENOSPC] ([None]: no limit);
    and the paths that were handed to [epub.read_epub]. *)
Record world : Type := World {
  fs : gmap (list str) entry;
  write_budget : option nat;
  read_log : list str
}.

(** The entry at a resolved path; the root is always a directory. *)
Definition entry_at (w : world) (p : list str) : option entry :=
  match p with
  | [] => Some Dir
  | _ => fs w !! p
  end.

Definition set_entry (p : list str) (e : entry) (w : world) : world :=
  World (<[p := e]> (fs w)) (write_budget w) (read_log w).

(** Code that acts on the world and may raise. *)
Definition io (A : Type) : Type := world -> res A * world.

Definition io_ret {A} (a : A) : io A := fun w => (inr a, w).

Definition io_raise {A} (e : exn) : io A := fun w => (inl e, w).

Definition io_bind {A B} (x : io A) (k : A -> io B) : io B :=
  fun w =>
    match x w with
    | (inl e, w') => (inl e, w')
    | (inr a, w') => k a w'
    end.

Definition io_lift {A} (x : res A) : io A := fun w => (x, w).

Notation "'let!' x ':=' e 'in' k" := (io_bind e (fun x => k))
  (at level 10, x pattern, e at level 100, k at level 200).

(** The collaborators of the program. *)
Class Platform : Type := {
  (** [bytes.decode('utf-8')] *)
  utf8_decode : list Byte.byte -> res str;
  (** [str.lower()] *)
  lower : str -> str;
  (** [BeautifulSoup(markup, 'html.parser')]: the children of the root. *)
  html_parser : str -> list node;
  (** [os.path.abspath], as the list of the path's components. *)
  abspath : str -> list str;
  (** [print(line)] on [sys.stdout]: the exception it raises, if the
      stream refuses the line (its encoding cannot encode it, the pipe is
      closed); a line that is refused is not printed. *)
  print_error : str -> option exn;
  (** [os.linesep]: what a file opened in text mode writes for ['\n']. *)
  linesep : str
}.

(* ===================================================================== *)
(** * The program *)
(* ===================================================================== *)

(** The two [re.sub] lines of [clean_html_content], with the [strip]
    between them. *)
Definition normalize_ws (text : str) : str :=
  let text := strip (re_sub ws_run_re [space] text) in
  re_sub para_break_re [nl; nl] text.

(** Truth value of a [str] and of a value that is [None] or a [str]. *)
Definition truthy (s : str) : bool :=
  match s with
  | [] => false
  | _ :: _ => true
  end.

Definition opt_truthy (o : option str) : bool :=
  match o with
  | Some s => truthy s
  | None => false
  end.

(** How an f-string shows a value that is [None] or a [str]. *)
Definition format_opt (o : option str) : str :=
  match o with
  | Some s => s
  | None => py "None"
  end.

(** [f"# {book_title}\n\n"] *)
Definition title_line (book_title : str) : str :=
  py "# " ++ book_title ++ [nl; nl].

(** The two chapter markers:
    [f"\n\n# Chapter {chapter_number}: {chapter_title}\n\n"] and
    [f"\n\n# Chapter {chapter_number}\n\n"]. *)
Definition chapter_marker (chapter_number : Z) (chapter_title : option str)
    : str :=
  if opt_truthy chapter_title
  then [nl; nl] ++ py "# Chapter " ++ str_of_int chapter_number
         ++ py ": " ++ format_opt chapter_title ++ [nl; nl]
  else [nl; nl] ++ py "# Chapter " ++ str_of_int chapter_number ++ [nl; nl].

(** The loop over [headers]: the stripped text of the first header whose
    stripped text is not empty and has fewer than 100 characters. *)
Fixpoint first_title (headers : list node) : option str :=
  match headers with
  | [] => None
  | header :: rest =>
      let header_text := strip (get_text header) in
      if truthy header_text && (length header_text <? 100)%nat
      then Some header_text
      else first_title rest
  end.

(** The end of the loop body, from [# Add chapter marker] on: the state is
    the pair of [chapter_number] and [full_text]. *)
Definition add_section (st : Z * list str) (is_chapter : bool)
    (chapter_title : option str) (text : str) : Z * list str :=
  let '(chapter_number, full_text) := st in
  let '(chapter_number, full_text) :=
    if is_chapter
    then (chapter_number + 1,
          full_text ++ [chapter_marker chapter_number chapter_title])%Z
    else (chapter_number, full_text) in
  (chapter_number, full_text ++ [text]).

(** [list[0]] *)
Definition first_of {A} (l : list A) : res A :=
  match l with
  | [] => inl (Exn IndexError (py "list index out of range"))
  | a :: _ => inr a
  end.

(** [repr] of a path in the message of an [OSError]. *)
Definition quoted (p : str) : str := py "'" ++ p ++ py "'".

(** A code point that UTF-8 cannot encode. *)
Definition is_surrogate (c : char) : bool :=
  ((55296 <=? c) && (c <=? 57343))%N.

(** The length of the UTF-8 encoding of a text. *)
Definition utf8_size (data : str) : Z :=
  foldr (fun c n =>
           ((if (c <? 128)%N then 1
             else if (c <? 2048)%N then 2
             else if (c <? 65536)%N then 3 else 4) + n)%Z) 0%Z data.

Section Program.
Context `{Platform}.

Definition clean_html_content (html_content : str) : str :=
  let soup := html_parser html_content in
  let soup := soup_decompose [py "script"; py "style"] soup in
  let text := soup_get_text soup in
  normalize_ws text.

(** [bool(re.search(r'chapter|prologue|epilogue', content.lower()))] *)
Definition is_chapter (content : str) : bool :=
  re_search chapter_re (lower content).

(** The title search of the loop body on the markup [content]. *)
Definition chapter_title (content : str) : option str :=
  let soup := html_parser content in
  let headers := soup_find_all [py "h1"; py "h2"; py "h3"] soup in
  first_title headers.

(** The body of [for item in book.get_items()]. *)
Definition process_item (st : Z * list str) (item : EpubItem)
    : res (Z * list str) :=
  if (item_type item =? ITEM_DOCUMENT)%Z then
    let? content := utf8_decode (item_content item) in
    let is_chap := is_chapter content in
    let text := clean_html_content content in
    if (length (strip text) <? 100)%nat then inr st
    else inr (add_section st is_chap (chapter_title content) text)
  else inr st.

(** The fragments and the counter after the loop, from the title line
    on. *)
Definition convert_items (book_title : str) (items : list EpubItem)
    : res (Z * list str) :=
  for_each process_item (1%Z, [title_line book_title]) items.

(** The part of [epub_to_text] between reading the book and touching the
    destination: the title and the text to write. *)
Definition render (book : EpubBook) : res (str * str) :=
  let? title_entry := first_of (dc_title book) in
  let book_title := fst title_entry in
  let? st := convert_items book_title (book_items book) in
  inr (book_title, join [nl] (snd st)).

(** ** The operating system and the container reader *)

(** [os.path.exists(p)] *)
Definition path_exists (p : str) : io bool :=
  fun w => (inr (bool_decide (is_Some (entry_at w (abspath p)))), w).

(** [epub.read_epub(p)] *)
Definition read_epub (p : str) : io EpubBook :=
  fun w =>
    let w' := World (fs w) (write_budget w) (read_log w ++ [p]) in
    match entry_at w (abspath p) with
    | Some (EpubFile book _) => (inr book, w')
    | Some (TextFile _) =>
        (inl (Exn BadZipFile (py "File is not a zip file")), w')
    | Some Dir =>
        (inl (Exn IsADirectoryError
                (py "[Errno 21] Is a directory: " ++ quoted p)), w')
    | None =>
        (inl (Exn FileNotFoundError
                (py "[Errno 2] No such file or directory: " ++ quoted p)),
         w')
    end.

(** [os.makedirs(d, exist_ok=True)] for a resolved directory: the missing
    directories on the way to [d] are made from the root down. *)
Fixpoint makedirs_from (done todo : list str) : io unit :=
  match todo with
  | [] => io_ret tt
  | c :: todo' =>
      let p := done ++ [c] in
      fun w =>
        match entry_at w p with
        | Some Dir => makedirs_from p todo' w
        | Some _ =>
            (inl (match todo' with
                  | [] => Exn FileExistsError (py "[Errno 17] File exists")
                  | _ => Exn NotADirectoryError (py "[Errno 20] Not a directory")
                  end), w)
        | None => makedirs_from p todo' (set_entry p Dir w)
        end
  end.

Definition makedirs (d : list str) : io unit := makedirs_from [] d.

(** [os.path.dirname] of a resolved path. *)
Definition dirname (p : list str) : list str := removelast p.

(** [open(p, 'w', encoding='utf-8')]: the file is created, or emptied if
    it is there.  The handle is the resolved path. *)
Definition open_w (p : str) : io (list str) :=
  fun w =>
    let f := abspath p in
    match entry_at w f with
    | Some Dir =>
        (inl (Exn IsADirectoryError
                (py "[Errno 21] Is a directory: " ++ quoted p)), w)
    | _ =>
        match entry_at w (dirname f) with
        | Some Dir => (inr f, set_entry f (TextFile []) w)
        | Some _ =>
            (inl (Exn NotADirectoryError
                    (py "[Errno 20] Not a directory: " ++ quoted p)), w)
        | None =>
            (inl (Exn FileNotFoundError
                    (py "[Errno 2] No such file or directory: "
                       ++ quoted p)), w)
        end
    end.

(** [f.write(data)] and the flush when the [with] block is left. *)
Definition write (f : list str) (data : str) : io unit :=
  fun w =>
    if existsb is_surrogate data
    then (inl (Exn UnicodeEncodeError
                 (py "'utf-8' codec can't encode character: surrogates not allowed")),
          w)
    else
      match write_budget w with
      | None => (inr tt, set_entry f (TextFile data) w)
      | Some n =>
          if (n <? length data)%nat
          then (inl (Exn OSError (py "[Errno 28] No space left on device")),
                World (<[f := TextFile (take n data)]> (fs w)) (Some 0%nat)
                      (read_log w))
          else (inr tt,
                World (<[f := TextFile data]> (fs w))
                      (Some (n - length data)%nat) (read_log w))
      end.

(** The characters of a text as a file opened in text mode holds them:
    every ['\n'] is written as [os.linesep]. *)
Definition on_disk (data : str) : str :=
  concat (map (fun c => if (c =? nl)%N then linesep else [c]) data).

(** [os.path.getsize(p)].  A directory has no content in this model and
    its size is given as 0; the program asks for the size of the file it
    has just written. *)
Definition getsize (p : str) : io Z :=
  fun w =>
    match entry_at w (abspath p) with
    | Some (TextFile data) => (inr (utf8_size (on_disk data)), w)
    | Some (EpubFile _ size) => (inr size, w)
    | Some Dir => (inr 0%Z, w)
    | None =>
        (inl (Exn FileNotFoundError
                (py "[Errno 2] No such file or directory: " ++ quoted p)),
         w)
    end.

(** ** [epub_to_text] *)

Definition epub_to_text (epub_path output_path : str) : io str :=
  let! found := path_exists epub_path in
  if negb found
  then io_raise (Exn FileNotFoundError
                   (py "EPUB file not found: " ++ epub_path))
  else
    let! book := read_epub epub_path in
    let! rendered := io_lift (render book) in
    let '(book_title, text) := rendered in
    let! _ := makedirs (dirname (abspath output_path)) in
    let! f := open_w output_path in
    let! _ := write f text in
    io_ret (py "Successfully converted '" ++ book_title
              ++ py "' to text format at " ++ output_path).

(** ** [main] *)

(** The parsed command line. *)
Record args : Type := {
  input : str;
  output : str;
  verbose : bool
}.

(** What the process leaves behind: the lines printed on each stream and
    the exit status. *)
Record outcome : Type := {
  stdout : list str;
  stderr : list str;
  exit_code : Z
}.

(** [print(line)] on [sys.stdout], after the lines in [out]. *)
Definition print_out (line : str) (out : list str) : res (list str) :=
  match print_error line with
  | Some e => inl e
  | None => inr (out ++ [line])
  end.

(** The handler of [main], after the lines in [out] were printed: the
    message goes to [sys.stderr], which escapes what it cannot encode, and
    the status is 1. *)
Definition report_error (out : list str) (e : exn) : outcome :=
  {| stdout := out; stderr := [py "Error: " ++ exn_str e]; exit_code := 1 |}.

(** The [try] block holds the conversion and every [print] after it: an
    exception of any of them ends in the handler. *)
Definition main (a : args) (w : world) : outcome * world :=
  match epub_to_text (input a) (output a) w with
  | (inr result, w1) =>
      match print_out result [] with
      | inl e => (report_error [] e, w1)
      | inr out1 =>
          if verbose a then
            match print_out ([nl] ++ py "Input file: " ++ input a) out1 with
            | inl e => (report_error out1 e, w1)
            | inr out2 =>
                match print_out (py "Output file: " ++ output a) out2 with
                | inl e => (report_error out2 e, w1)
                | inr out3 =>
                    match getsize (output a) w1 with
                    | (inl e, w2) => (report_error out3 e, w2)
                    | (inr size, w2) =>
                        match print_out (py "File size: " ++ str_of_int size
                                           ++ py " bytes") out3 with
                        | inl e => (report_error out3 e, w2)
                        | inr out4 =>
                            ({| stdout := out4; stderr := [];
                                exit_code := 0 |}, w2)
                        end
                    end
                end
            end
          else ({| stdout := out1; stderr := []; exit_code := 0 |}, w1)
      end
  | (inl e, w1) => (report_error [] e, w1)
  end.

End Program.

(* ===================================================================== *)
(** * Predicates used to state the properties *)
(* ===================================================================== *)

(** Does the string begin with a whitespace character? *)
Definition leading_space (s : str) : bool :=
  match s with
  | [] => false
  | c :: _ => is_space c
  end.

(** Every whitespace character is a single [' '] between two characters
    that are not whitespace, or at an end of the string. *)
Fixpoint single_spaced (s : str) : bool :=
  match s with
  | [] => true
  | c :: s' =>
      (if is_space c then (c =? space)%N && negb (leading_space s') else true)
        && single_spaced s'
  end.

(** No whitespace at either end. *)
Definition trimmed (s : str) : Prop :=
  leading_space s = false /\ leading_space (rev s) = false.


(** A fragment that is a chapter marker: it begins with
    ["\n\n# Chapter "]. *)
Definition is_chapter_marker (frag : str) : bool :=
  starts_with ([nl; nl] ++ py "# Chapter ") frag.

(** A heading that can give the title: its stripped text is not empty and
    has fewer than 100 characters. *)
Definition title_candidate (h : node) : Prop :=
  strip (get_text h) <> [] /\ (length (strip (get_text h)) < 100)%nat.


(** The text strings of a tree that are not below an element named in
    [tags]. *)
Fixpoint visible_text (tags : list str) (n : node) : str :=
  match n with
  | Text s => s
  | Hidden _ => []
  | Element tag _ children =>
      if has_tag tags tag then []
      else concat (map (visible_text tags) children)
  end.

(** No two neighbours in the string are both whitespace. *)
Definition no_ws_run (s : str) : Prop :=
  forall pre a b post,
    s = pre ++ a :: b :: post -> is_space a = true -> is_space b = false.

Section Items.
Context `{Platform}.

(** The markup of an item the loop looks at: a document item whose
    content decodes. *)
Definition item_markup (item : EpubItem) : option str :=
  if (item_type item =? ITEM_DOCUMENT)%Z then
    match utf8_decode (item_content item) with
    | inr content => Some content
    | inl _ => None
    end
  else None.

(** The length filter: the extracted text has at least 100 characters. *)
Definition passes_length_filter (content : str) : bool :=
  (100 <=? length (strip (clean_html_content content)))%nat.

(** An item that is kept and looks like a chapter. *)
Definition kept_chapter (item : EpubItem) : bool :=
  match item_markup item with
  | Some content => passes_length_filter content && is_chapter content
  | None => false
  end.

Definition item_title (item : EpubItem) : option str :=
  match item_markup item with
  | Some content => chapter_title content
  | None => None
  end.

(** The destination of a run, as the world has it. *)
Definition destination (output_path : str) (w : world) : option entry :=
  entry_at w (abspath output_path).
End Items.

(* ===================================================================== *)
(** * A small platform and sample books, to run the program on *)
(* ===================================================================== *)

Module Sample.

(** The codec on ASCII: a byte above 127 is refused. *)
Definition decode (b : list Byte.byte) : res str :=
  let cs := map Byte.to_N b in
  if forallb (fun c => (c <? 128)%N) cs then inr cs
  else inl (Exn UnicodeDecodeError
              (py "'utf-8' codec can't decode byte: invalid start byte")).

Definition encode (s : str) : list Byte.byte :=
  map (fun c => default Byte.x00 (Byte.of_N c)) s.

(** Lower case on ASCII letters. *)
Definition ascii_lower (s : str) : str :=
  map (fun c => if ((65 <=? c) && (c <=? 90))%N then (c + 32)%N else c) s.

(** The markup of a tree. *)
Fixpoint markup (n : node) : str :=
  match n with
  | Text s => s
  | Hidden s => py "<!--" ++ s ++ py "-->"
  | Element tag attrs children =>
      py "<" ++ tag
        ++ concat (map (fun a => py " " ++ fst a ++ py "='" ++ snd a
                                   ++ py "'") attrs)
        ++ py ">" ++ concat (map markup children)
        ++ py "</" ++ tag ++ py ">"
  end.

Definition soup_markup (soup : list node) : str := concat (map markup soup).

Definition filler : str :=
  py "The harbour lay quiet under a thin grey rain, and the ferry that should have left at noon was still tied to the quay when the lamps were lit.".

Definition el (tag : String.string) (children : list node) : node :=
  Element (py tag) [] children.

(** A preface: a heading and a paragraph, none of the keywords. *)
Definition doc_intro : list node :=
  [el "body" [el "h1" [Text (py "Intro")]; el "p" [Text filler]]].

(** A chapter with its heading. *)
Definition doc_one : list node :=
  [el "body" [el "h2" [Text (py " Chapter One ")];
              el "p" [Text (py "Chapter the first. " ++ filler)]]].

(** A navigation page: too short to be kept. *)
Definition doc_nav : list node :=
  [el "nav" [el "h1" [Text (py "Chapter list")]]].

(** The keyword only inside a script. *)
Definition doc_script : list node :=
  [el "body" [el "script" [Text (py "var chapter = 1;")];
              el "p" [Text filler]]].

(** The same page with another script. *)
Definition doc_script' : list node :=
  [el "body" [el "script" [Text (py "init();")]; el "p" [Text filler]]].

(** The keyword only inside an attribute, in upper case. *)
Definition doc_attr : list node :=
  [Element (py "div") [(py "class", py "CHAPTER-body")]
     [el "h1" []; el "h3" [Text (py "Afterword")]; el "p" [Text filler]]].

Definition documents : list (list node) :=
  [doc_intro; doc_one; doc_nav; doc_script; doc_script'; doc_attr].

(** The parser on the sample documents: the tree whose markup is the
    input; any other input is one text string. *)
Definition parse (s : str) : list node :=
  match List.filter (fun d => bool_decide (soup_markup d = s)) documents with
  | d :: _ => d
  | [] => [Text s]
  end.

(** Paths: the components between the slashes. *)
Fixpoint split_path (cur : str) (s : str) : list str :=
  match s with
  | [] => match cur with [] => [] | _ => [cur] end
  | c :: s' =>
      if (c =? 47)%N
      then match cur with
           | [] => split_path [] s'
           | _ => cur :: split_path [] s'
           end
      else split_path (cur ++ [c]) s'
  end.

Definition platform : Platform := {|
  utf8_decode := decode;
  lower := ascii_lower;
  html_parser := parse;
  abspath := split_path [];
  print_error := fun _ => None;
  linesep := [nl]
|}.

Definition document (soup : list node) : EpubItem :=
  {| item_type := ITEM_DOCUMENT; item_content := encode (soup_markup soup) |}.

(** An image between the documents. *)
Definition picture : EpubItem :=
  {| item_type := 1; item_content := [Byte.xff; Byte.xd8] |}.

Definition book : EpubBook :=
  {| dc_title := [(py "Test Book", [])];
     book_items := [document doc_intro; picture; document doc_nav;
                    document doc_one; document doc_script;
                    document doc_attr] |}.

(** The fragments the program is to make of [book]. *)
Definition fragments : list str :=
  [title_line (py "Test Book");
   py "Intro" ++ filler;
   chapter_marker 1 (Some (py "Chapter One"));
   py "Chapter One Chapter the first. " ++ filler;
   chapter_marker 2 None;
   filler;
   chapter_marker 3 (Some (py "Afterword"));
   py "Afterword" ++ filler].

Definition untitled_book : EpubBook :=
  {| dc_title := []; book_items := [document doc_one] |}.

(** A world with the two books, a directory and an old output file. *)
Definition disk : gmap (list str) entry :=
  <[ [py "books"] := Dir ]>
  (<[ [py "books"; py "test.epub"] := EpubFile book 4096 ]>
  (<[ [py "books"; py "untitled.epub"] := EpubFile untitled_book 2048 ]>
  (<[ [py "out"] := Dir ]>
  (<[ [py "out"; py "old.txt"] := TextFile (py "an earlier conversion") ]>
   ∅)))).

Definition world0 : world := World disk None [].

(** The same world on a device that takes five more characters. *)
Definition world_full : world := World disk (Some 5%nat) [].

Definition old_output : str := py "out/old.txt".

Definition convert_book : args :=
  {| input := py "books/test.epub"; output := py "out/new/test.txt";
     verbose := false |}.

Definition convert_nothing : args :=
  {| input := py "books/missing.epub"; output := py "out/new/test.txt";
     verbose := false |}.

Definition convert_untitled : args :=
  {| input := py "books/untitled.epub"; output := py "out/new/test.txt";
     verbose := true |}.

End Sample.

(** The all-or-nothing reading of a run: when it ends well the destination
    holds the whole text, and when it raises the destination is what it was
    before. *)
Definition writes_all_or_nothing `{Platform}
    (epub_path output_path : str) (w : world) : Prop :=
  match epub_to_text epub_path output_path w with
  | (inr _, w') =>
      exists book size rendered,
        entry_at w (abspath epub_path) = Some (EpubFile book size)
        /\ render book = inr rendered
        /\ destination output_path w' = Some (TextFile (snd rendered))
  | (inl _, w') => destination output_path w' = destination output_path w
  end.

(* ===================================================================== *)
(** * Further predicates and sample books *)
(* ===================================================================== *)

(** The characters of a string that are not whitespace, in their order. *)
Definition visible_chars (s : str) : str :=
  List.filter (fun c => negb (is_space c)) s.

Section Sections.
Context `{Platform}.

(** The text the loop appends for an item, if it appends one. *)
Definition kept_text (item : EpubItem) : option str :=
  match item_markup item with
  | Some content =>
      if passes_length_filter content
      then Some (clean_html_content content) else None
  | None => None
  end.

(** An item the loop passes over: it is no document, or its text is
    shorter than 100 characters. *)
Definition passed_over (item : EpubItem) : Prop :=
  item_type item <> ITEM_DOCUMENT
  \/ exists content,
       utf8_decode (item_content item) = inr content
       /\ (length (strip (clean_html_content content)) < 100)%nat.

(** The world right after [epub.read_epub(epub_path)]. *)
Definition after_read (epub_path : str) (w : world) : world :=
  World (fs w) (write_budget w) (read_log w ++ [epub_path]).

(** [f"Successfully converted '{book_title}' to text format at
    {output_path}"] *)
Definition success_message (book_title output_path : str) : str :=
  py "Successfully converted '" ++ book_title
    ++ py "' to text format at " ++ output_path.
End Sections.

Module Cases.

(** A document whose bytes are not UTF-8. *)
Definition broken : EpubItem :=
  {| item_type := ITEM_DOCUMENT; item_content := [Byte.xc3; Byte.x28] |}.

Definition broken_book : EpubBook :=
  {| dc_title := [(py "Broken", [])];
     book_items := [Sample.document Sample.doc_intro; broken;
                    Sample.document Sample.doc_one] |}.

(** A book of front matter only, with two title entries. *)
Definition pamphlet : EpubBook :=
  {| dc_title := [(py "Pamphlet", []); (py "A second title", [])];
     book_items := [Sample.picture; Sample.document Sample.doc_nav] |}.

Definition disk : gmap (list str) entry :=
  <[ [py "books"; py "broken.epub"] := EpubFile broken_book 1024 ]>
  (<[ [py "books"; py "pamphlet.epub"] := EpubFile pamphlet 512 ]>
   Sample.disk).

Definition world1 : world := World disk None [].

Definition convert_broken : args :=
  {| input := py "books/broken.epub"; output := py "out/new/broken.txt";
     verbose := true |}.

Definition convert_verbose : args :=
  {| input := py "books/test.epub"; output := py "out/deep/er/test.txt";
     verbose := true |}.

End Cases.

(** A decimal digit. *)
Definition is_digit (c : char) : bool := ((48 <=? c) && (c <=? 57))%N.

(** The string is empty or begins with a character that is no digit. *)
Definition ends_number (s : str) : Prop :=
  match s with
  | [] => True
  | c :: _ => is_digit c = false
  end.


Module Corner.

(** A heading with a script inside it. *)
Definition doc_heading_script : list node :=
  [Sample.el "body"
     [Sample.el "h1" [Text (py "Title");
                      Sample.el "script" [Text (py "chapter SECRET")]];
      Sample.el "p" [Text Sample.filler]]].

(** The same page with another script. *)
Definition doc_heading_script' : list node :=
  [Sample.el "body"
     [Sample.el "h1" [Text (py "Title");
                      Sample.el "script" [Text (py "chapter")]];
      Sample.el "p" [Text Sample.filler]]].

Definition documents : list (list node) :=
  [doc_heading_script; doc_heading_script'; Sample.doc_one].

Definition parse (s : str) : list node :=
  match List.filter (fun d => bool_decide (Sample.soup_markup d = s))
          documents with
  | d :: _ => d
  | [] => [Text s]
  end.

(** A standard output that encodes ASCII only. *)
Definition ascii_console (line : str) : option exn :=
  if forallb (fun c => (c <? 128)%N) line then None
  else Some (Exn UnicodeEncodeError
               (py "'ascii' codec can't encode character: ordinal not in range(128)")).

(** A platform with that console, where a line ends in CR LF. *)
Definition platform : Platform := {|
  utf8_decode := Sample.decode;
  lower := Sample.ascii_lower;
  html_parser := parse;
  abspath := Sample.split_path [];
  print_error := ascii_console;
  linesep := [13%N; 10%N]
|}.

(** A book whose title is not ASCII, and one whose title is. *)
Definition umlaut_book : EpubBook :=
  {| dc_title := [([220%N; 110%N; 239%N], [])];
     book_items := [Sample.document Sample.doc_one] |}.

Definition plain_book : EpubBook :=
  {| dc_title := [(py "Plain", [])];
     book_items := [Sample.document Sample.doc_one] |}.

Definition disk : gmap (list str) entry :=
  <[ [py "books"; py "umlaut.epub"] := EpubFile umlaut_book 777 ]>
  (<[ [py "books"; py "plain.epub"] := EpubFile plain_book 778 ]>
   Sample.disk).

Definition world1 : world := World disk None [].

Definition convert_umlaut : args :=
  {| input := py "books/umlaut.epub"; output := py "out/umlaut.txt";
     verbose := true |}.

Definition convert_plain : args :=
  {| input := py "books/plain.epub"; output := py "out/plain.txt";
     verbose := true |}.

(** The output path names the input. *)
Definition convert_in_place : args :=
  {| input := py "books/test.epub"; output := py "books/test.epub";
     verbose := false |}.

End Corner.
(* ===================================================================== *)
(** * Whitespace: [strip] and the two substitutions *)
(* ===================================================================== *)

Lemma lstrip_length s : (length (lstrip s) <= length s)%nat.
Proof. induction s as [|c s IH]; simpl; [lia|]. destruct (is_space c); simpl; lia. Qed.

Lemma lstrip_leading s : leading_space (lstrip s) = false.
Proof.
  induction s as [|c s IH]; simpl; [done|].
  destruct (is_space c) eqn:E; [done|]. simpl. by rewrite E.
Qed.

Lemma lstrip_id s : leading_space s = false -> lstrip s = s.
Proof. destruct s as [|c s]; simpl; [done|]. by intros ->. Qed.

Lemma lstrip_suffix s : exists pre, s = pre ++ lstrip s.
Proof.
  induction s as [|c s [pre IH]]; simpl.
  - by exists [].
  - destruct (is_space c).
    + exists (c :: pre). simpl. by rewrite <- IH.
    + by exists [].
Qed.

Lemma rstrip_prefix s : exists suf, s = rstrip s ++ suf.
Proof.
  unfold rstrip. destruct (lstrip_suffix (rev s)) as [pre Hpre].
  exists (rev pre).
  rewrite <- rev_app_distr, <- Hpre. by rewrite rev_involutive.
Qed.

Lemma leading_space_prefix a b :
  leading_space (a ++ b) = false -> leading_space a = false.
Proof. by destruct a. Qed.

Lemma strip_trimmed s : trimmed (strip s).
Proof.
  unfold trimmed, strip. split.
  - destruct (rstrip_prefix (lstrip s)) as [suf Hs].
    apply (leading_space_prefix _ suf). rewrite <- Hs. apply lstrip_leading.
  - unfold rstrip. rewrite rev_involutive. apply lstrip_leading.
Qed.

Lemma trimmed_strip s : trimmed s -> strip s = s.
Proof.
  intros [Hl Hr]. unfold strip, rstrip.
  rewrite (lstrip_id s Hl), (lstrip_id _ Hr). apply rev_involutive.
Qed.

Lemma strip_length s : (length (strip s) <= length s)%nat.
Proof.
  unfold strip, rstrip. rewrite length_rev.
  etrans; [apply lstrip_length|]. rewrite length_rev. apply lstrip_length.
Qed.

Lemma single_spaced_app_l a b : single_spaced (a ++ b) = true -> single_spaced a = true.
Proof.
  induction a as [|c a IH]; simpl; [done|].
  intros [H1 H2]%andb_true_iff. rewrite (IH H2), andb_true_r.
  destruct (is_space c); [|done].
  apply andb_true_iff in H1 as [-> H1]. simpl.
  apply negb_true_iff in H1. by rewrite (leading_space_prefix _ _ H1).
Qed.

Lemma single_spaced_app_r a b : single_spaced (a ++ b) = true -> single_spaced b = true.
Proof.
  induction a as [|c a IH]; simpl; [done|].
  intros [_ H2]%andb_true_iff. auto.
Qed.

Lemma single_spaced_strip s : single_spaced s = true -> single_spaced (strip s) = true.
Proof.
  intros Hs. unfold strip.
  destruct (lstrip_suffix s) as [pre Hpre].
  destruct (rstrip_prefix (lstrip s)) as [suf Hsuf].
  apply (single_spaced_app_l _ suf). rewrite <- Hsuf.
  apply (single_spaced_app_r pre). by rewrite <- Hpre.
Qed.

(** A whitespace character of a single-spaced string is a [' ']. *)
Lemma single_spaced_space s c :
  single_spaced s = true -> c ∈ s -> is_space c = true -> c = space.
Proof.
  induction s as [|x s IH]; simpl; [by intros _ ?%elem_of_nil|].
  intros [H1 H2]%andb_true_iff [->|Hin]%elem_of_cons Hc; [|by auto].
  rewrite Hc in H1. apply andb_true_iff in H1 as [H1 _].
  by apply N.eqb_eq in H1.
Qed.

Lemma single_spaced_no_nl s : single_spaced s = true -> nl ∉ s.
Proof. intros Hs Hin. by pose proof (single_spaced_space s nl Hs Hin eq_refl). Qed.

(** ** The matcher on the patterns of the program *)

Lemma star_space_greedy fuel s :
  (length s <= fuel)%nat ->
  star_loop (m (Cls is_space)) Some fuel s = Some (lstrip s).
Proof.
  revert s. induction fuel as [|fuel IH]; intros s Hlen.
  - destruct s; [done|simpl in Hlen; lia].
  - destruct s as [|c s]; simpl; [done|].
    destruct (is_space c); [|done].
    replace (length s <? S (length s))%nat with true
      by (symmetry; apply Nat.ltb_lt; lia).
    rewrite IH; [done|simpl in Hlen; lia].
Qed.

Lemma match_ws_run s :
  match_at ws_run_re s =
    match s with
    | [] => None
    | c :: s' => if is_space c then Some (lstrip s') else None
    end.
Proof.
  destruct s as [|c s]; [done|].
  unfold match_at, ws_run_re, Plus. simpl.
  destruct (is_space c); [|done]. by apply star_space_greedy.
Qed.

Lemma match_para_break s :
  leading_space s = false -> match_at para_break_re s = None.
Proof.
  destruct s as [|c s]; [done|].
  unfold match_at, para_break_re. simpl. intros Hc.
  destruct (c =? nl)%N eqn:E; [|done].
  apply N.eqb_eq in E. subst c. done.
Qed.

Lemma match_para_break_ne c s :
  c <> nl -> match_at para_break_re (c :: s) = None.
Proof.
  intros Hc. unfold match_at, para_break_re. simpl.
  destruct (c =? nl)%N eqn:E; [|done]. by apply N.eqb_eq in E.
Qed.

(** ** [re.sub] on the two patterns *)

Lemma sub_ws_single_spaced fuel s :
  (length s < fuel)%nat ->
  single_spaced (sub_from fuel ws_run_re [space] s) = true
  /\ leading_space (sub_from fuel ws_run_re [space] s) = leading_space s.
Proof.
  revert s. induction fuel as [|fuel IH]; intros s Hlen; [lia|].
  simpl. rewrite match_ws_run. destruct s as [|c s]; [done|].
  simpl in Hlen. destruct (is_space c) eqn:Ec.
  - pose proof (lstrip_length s) as Hl.
    replace (length (lstrip s) <? length (c :: s))%nat with true
      by (symmetry; apply Nat.ltb_lt; simpl; lia).
    destruct (IH (lstrip s)) as [IH1 IH2]; [lia|].
    simpl. rewrite IH1, IH2, lstrip_leading. by rewrite Ec.
  - destruct (IH s) as [IH1 IH2]; [lia|].
    simpl. by rewrite Ec, IH1.
Qed.

Lemma sub_ws_fixed fuel s :
  (length s < fuel)%nat ->
  single_spaced s = true -> sub_from fuel ws_run_re [space] s = s.
Proof.
  revert s. induction fuel as [|fuel IH]; intros s Hlen Hs; [lia|].
  simpl. rewrite match_ws_run. destruct s as [|c s]; [done|].
  simpl in Hlen, Hs. apply andb_true_iff in Hs as [H1 H2].
  destruct (is_space c) eqn:Ec.
  - apply andb_true_iff in H1 as [Hc Hlead].
    apply N.eqb_eq in Hc. apply negb_true_iff in Hlead.
    rewrite (lstrip_id s Hlead).
    replace (length s <? length (c :: s))%nat with true
      by (symmetry; apply Nat.ltb_lt; simpl; lia).
    simpl. rewrite IH; [by subst c|lia|done].
  - rewrite IH; [done|lia|done].
Qed.

Lemma sub_para_no_nl fuel repl s :
  nl ∉ s -> sub_from fuel para_break_re repl s = s.
Proof.
  revert s. induction fuel as [|fuel IH]; intros s Hs; [done|].
  simpl. destruct s as [|c s]; [done|].
  rewrite match_para_break_ne by (intros ->; apply Hs; left).
  rewrite IH; [done|]. intros Hin. apply Hs. by right.
Qed.

Lemma re_sub_ws_single_spaced s :
  single_spaced (re_sub ws_run_re [space] s) = true.
Proof. unfold re_sub. apply sub_ws_single_spaced. lia. Qed.

(** What the first two steps of the normalisation leave. *)
Lemma collapsed_single_spaced s :
  single_spaced (strip (re_sub ws_run_re [space] s)) = true.
Proof. apply single_spaced_strip, re_sub_ws_single_spaced. Qed.

Lemma normalize_ws_eq s :
  normalize_ws s = strip (re_sub ws_run_re [space] s).
Proof.
  unfold normalize_ws, re_sub at 1.
  apply sub_para_no_nl, single_spaced_no_nl, collapsed_single_spaced.
Qed.

Lemma normalize_ws_single_spaced s : single_spaced (normalize_ws s) = true.
Proof. rewrite normalize_ws_eq. apply collapsed_single_spaced. Qed.

Lemma normalize_ws_trimmed s : trimmed (normalize_ws s).
Proof. rewrite normalize_ws_eq. apply strip_trimmed. Qed.

Lemma single_spaced_no_ws_run s : single_spaced s = true -> no_ws_run s.
Proof.
  intros Hs pre a b post -> Ha.
  apply single_spaced_app_r in Hs. simpl in Hs.
  rewrite Ha in Hs.
  apply andb_true_iff in Hs as [Hs _].
  apply andb_true_iff in Hs as [_ Hs].
  by apply negb_true_iff in Hs.
Qed.

Lemma normalize_ws_fixed t :
  single_spaced t = true -> trimmed t -> normalize_ws t = t.
Proof.
  intros Hs Ht. rewrite normalize_ws_eq. unfold re_sub.
  rewrite sub_ws_fixed; [by apply trimmed_strip|lia|done].
Qed.

(** C6.  The text of a section has no two neighbouring whitespace
    characters, so the exception for paragraph breaks never comes up: it
    has no newline at all.  The paragraph-break substitution changes
    nothing on a string the whitespace substitution produced, before the
    [strip] or after it. *)
Theorem section_text_collapsed `{Platform} (content s : str) :
  no_ws_run (clean_html_content content)
  /\ (nl ∉ clean_html_content content)
  /\ re_sub para_break_re [nl; nl] (re_sub ws_run_re [space] s)
     = re_sub ws_run_re [space] s
  /\ re_sub para_break_re [nl; nl] (strip (re_sub ws_run_re [space] s))
     = strip (re_sub ws_run_re [space] s).
Proof.
  unfold clean_html_content. repeat split.
  - apply single_spaced_no_ws_run, normalize_ws_single_spaced.
  - apply single_spaced_no_nl, normalize_ws_single_spaced.
  - unfold re_sub at 1.
    apply sub_para_no_nl, single_spaced_no_nl, re_sub_ws_single_spaced.
  - apply (normalize_ws_eq s).
Qed.

(** C7.  Normalising a normalised string gives it back. *)
Theorem normalize_ws_idempotent (s : str) :
  normalize_ws (normalize_ws s) = normalize_ws s.
Proof.
  apply normalize_ws_fixed.
  - apply normalize_ws_single_spaced.
  - apply normalize_ws_trimmed.
Qed.

(* ===================================================================== *)
(** * The chapter heuristic *)
(* ===================================================================== *)

Lemma starts_with_app w s : starts_with w (w ++ s) = true.
Proof. induction w as [|a w IH]; simpl; [done|]. by rewrite N.eqb_refl. Qed.

Lemma starts_with_spec w s :
  starts_with w s = true <-> exists post, s = w ++ post.
Proof.
  split.
  - revert s. induction w as [|a w IH]; intros s Hs.
    + by exists s.
    + destruct s as [|b s]; [done|]. simpl in Hs.
      apply andb_true_iff in Hs as [Hb Hs]. apply N.eqb_eq in Hb.
      destruct (IH _ Hs) as [post ->]. exists post. by subst b.
  - intros [post ->]. apply starts_with_app.
Qed.

Lemma m_lit w s k :
  m (lit w) s k = if starts_with w s then k (drop (length w) s) else None.
Proof.
  revert s. induction w as [|a w IH]; intros s; [done|].
  change (lit (a :: w)) with (Cat (Chr a) (lit w)). cbn [m].
  destruct s as [|b s]; [done|]. simpl.
  destruct (b =? a)%N; [apply IH|done].
Qed.

Lemma re_search_spec r s :
  re_search r s = true <->
  exists pre suf, s = pre ++ suf /\ is_Some (match_at r suf).
Proof.
  induction s as [|c s IH]; simpl.
  - destruct (match_at r []) eqn:E.
    + split; [|done]. intros _. exists [], []. by rewrite E.
    + split; [done|]. intros (pre & suf & Hs & Hm).
      symmetry in Hs. apply app_eq_nil in Hs as [-> ->].
      rewrite E in Hm. by destruct Hm.
  - destruct (match_at r (c :: s)) eqn:E.
    + split; [|done]. intros _. exists [], (c :: s). by rewrite E.
    + rewrite IH. split.
      * intros (pre & suf & -> & Hm). by exists (c :: pre), suf.
      * intros (pre & suf & Hs & Hm). destruct pre as [|x pre].
        -- simpl in Hs. subst suf. rewrite E in Hm. by destruct Hm.
        -- injection Hs as -> ->. by exists pre, suf.
Qed.

Lemma match_chapter_re s :
  is_Some (match_at chapter_re s) <->
  exists kw, kw ∈ chapter_keywords /\ starts_with kw s = true.
Proof.
  unfold match_at, chapter_re, chapter_keywords. cbn [m]. rewrite !m_lit.
  split.
  - intros Hm.
    destruct (starts_with (py "chapter") s) eqn:E1;
      [exists (py "chapter"); split; [set_solver|done]|].
    destruct (starts_with (py "prologue") s) eqn:E2;
      [exists (py "prologue"); split; [set_solver|done]|].
    destruct (starts_with (py "epilogue") s) eqn:E3;
      [exists (py "epilogue"); split; [set_solver|done]|].
    by destruct Hm.
  - intros (kw & Hin & Hkw).
    apply elem_of_cons in Hin as [->|Hin]; [by rewrite Hkw|].
    destruct (starts_with (py "chapter") s); [done|].
    apply elem_of_cons in Hin as [->|Hin]; [by rewrite Hkw|].
    destruct (starts_with (py "prologue") s); [done|].
    apply elem_of_cons in Hin as [->|Hin]; [by rewrite Hkw|].
    by apply elem_of_nil in Hin.
Qed.

Lemma re_search_chapter_re s :
  re_search chapter_re s = true <->
  exists kw, kw ∈ chapter_keywords /\ contains kw s.
Proof.
  rewrite re_search_spec. unfold contains. split.
  - intros (pre & suf & -> & Hm).
    apply match_chapter_re in Hm as (kw & Hin & Hkw).
    apply starts_with_spec in Hkw as [post ->]. by exists kw; eauto.
  - intros (kw & Hin & pre & post & ->).
    exists pre, (kw ++ post). split; [done|].
    apply match_chapter_re. exists kw. split; [done|apply starts_with_app].
Qed.

(** C3.  An item is taken for a chapter exactly when its markup, as it was
    decoded and then put in lower case, has one of the three keywords in
    it; the markup is the raw one, nothing has been stripped from it. *)
Theorem is_chapter_iff_keyword `{Platform} (content : str) :
  is_chapter content = true <->
  exists kw, kw ∈ chapter_keywords /\ contains kw (lower content).
Proof. apply re_search_chapter_re. Qed.

(* ===================================================================== *)
(** * The parse tree *)
(* ===================================================================== *)

Lemma node_ind' (P : node -> Prop) :
  (forall s, P (Text s)) ->
  (forall s, P (Hidden s)) ->
  (forall tag attrs children, Forall P children -> P (Element tag attrs children)) ->
  forall n, P n.
Proof.
  intros HT HH HE. fix IH 1. intros [s|s|tag attrs children]; [auto..|].
  apply HE. induction children as [|c children IHc]; constructor; auto.
Qed.

Lemma find_all_named tags n :
  Forall (fun h => exists tag attrs children,
            h = Element tag attrs children /\ tag ∈ tags) (find_all tags n).
Proof.
  induction n as [s|s|tag attrs children IH] using node_ind'; simpl; [done..|].
  apply Forall_app. split.
  - unfold has_tag. case_bool_decide; [|done].
    constructor; [|done]. by exists tag, attrs, children.
  - induction IH as [|c children Hc _ IHc]; simpl; [done|].
    apply Forall_app. by split.
Qed.

Lemma soup_find_all_named tags soup :
  Forall (fun h => exists tag attrs children,
            h = Element tag attrs children /\ tag ∈ tags)
         (soup_find_all tags soup).
Proof.
  unfold soup_find_all. induction soup as [|n soup IH]; simpl; [done|].
  apply Forall_app. split; [apply find_all_named|done].
Qed.



Lemma get_text_decompose tags n :
  concat (map get_text (decompose tags n)) = visible_text tags n.
Proof.
  induction n as [s|s|tag attrs children IH] using node_ind'; simpl;
    [by rewrite ?app_nil_r..|].
  destruct (has_tag tags tag); [done|]. simpl. rewrite app_nil_r.
  induction IH as [|c children Hc _ IHc]; simpl; [done|].
  by rewrite map_app, concat_app, Hc, IHc.
Qed.

(** What [clean_html_content] normalises is the text outside the script
    and style elements. *)
Lemma clean_html_content_visible `{Platform} content :
  clean_html_content content
    = normalize_ws
        (concat (map (visible_text [py "script"; py "style"])
                     (html_parser content))).
Proof.
  unfold clean_html_content, soup_get_text, soup_decompose. f_equal.
  induction (html_parser content) as [|n soup IH]; simpl; [done|].
  by rewrite map_app, concat_app, get_text_decompose, IH.
Qed.


(* ===================================================================== *)
(** * The title of a section *)
(* ===================================================================== *)

Lemma truthy_spec s : truthy s = true <-> s <> [].
Proof. by destruct s. Qed.

Lemma candidate_test h :
  truthy (strip (get_text h)) && (length (strip (get_text h)) <? 100)%nat = true
  <-> title_candidate h.
Proof.
  unfold title_candidate.
  rewrite andb_true_iff, truthy_spec, Nat.ltb_lt. done.
Qed.

Lemma first_title_Some headers t :
  first_title headers = Some t <->
  exists pre h post,
    headers = pre ++ h :: post
    /\ Forall (fun x => ~ title_candidate x) pre
    /\ title_candidate h
    /\ t = strip (get_text h).
Proof.
  induction headers as [|x headers IH]; simpl.
  - split; [done|]. intros (pre & h & post & Hh & _). by destruct pre.
  - destruct (truthy _ && _) eqn:E.
    + apply candidate_test in E. split.
      * intros [= <-]. exists [], x, headers.
        split; [done|]. split; [constructor|]. by split.
      * intros (pre & h & post & Hh & Hpre & Hc & ->).
        destruct pre as [|y pre]; simpl in Hh.
        -- by injection Hh as -> _.
        -- injection Hh as -> _. by apply Forall_cons in Hpre as [? _].
    + assert (~ title_candidate x) as Hx.
      { intros Hc%candidate_test. congruence. }
      rewrite IH. split.
      * intros (pre & h & post & -> & Hpre & Hc & ->).
        exists (x :: pre), h, post.
        split; [done|]. split; [by constructor|]. by split.
      * intros (pre & h & post & Hh & Hpre & Hc & ->).
        destruct pre as [|y pre]; simpl in Hh.
        -- by injection Hh as -> _.
        -- injection Hh as -> ->. apply Forall_cons in Hpre as [_ Hpre].
           by exists pre, h, post.
Qed.

Lemma first_title_None headers :
  first_title headers = None <->
  Forall (fun x => ~ title_candidate x) headers.
Proof.
  induction headers as [|x headers IH]; simpl; [done|].
  destruct (truthy _ && _) eqn:E.
  - apply candidate_test in E. split; [done|].
    by intros [? _]%Forall_cons.
  - rewrite IH. split.
    + intros Hh. constructor; [|done]. intros Hc%candidate_test. congruence.
    + by intros [_ ?]%Forall_cons.
Qed.

Lemma first_title_truthy headers t :
  first_title headers = Some t -> truthy t = true.
Proof.
  intros (pre & h & post & _ & _ & [Hne _] & ->)%first_title_Some.
  by apply truthy_spec.
Qed.

(** C4.  For an item that is kept: the headings looked at are the h1, h2
    and h3 elements of its markup in document order; the title is the
    stripped text of the first of them whose stripped text is not empty and
    has fewer than 100 characters, and there is none when no heading is
    like that; the title goes into the output only inside the marker of an
    item taken for a chapter. *)
Theorem title_from_first_heading `{Platform}
    (item : EpubItem) (content : str) (n : Z) (full_text : list str) :
  item_type item = ITEM_DOCUMENT ->
  utf8_decode (item_content item) = inr content ->
  (100 <= length (strip (clean_html_content content)))%nat ->
  let headers := soup_find_all [py "h1"; py "h2"; py "h3"] (html_parser content) in
  let text := clean_html_content content in
  Forall (fun h => exists tag attrs children,
            h = Element tag attrs children
            /\ tag ∈ [py "h1"; py "h2"; py "h3"]) headers
  /\ (forall t, chapter_title content = Some t <->
        exists pre h post,
          headers = pre ++ h :: post
          /\ Forall (fun x => ~ title_candidate x) pre
          /\ title_candidate h
          /\ t = strip (get_text h))
  /\ (chapter_title content = None <->
        Forall (fun x => ~ title_candidate x) headers)
  /\ process_item (n, full_text) item =
       inr (if is_chapter content
            then ((n + 1)%Z,
                  full_text ++
                    [match chapter_title content with
                     | Some t => [nl; nl] ++ py "# Chapter " ++ str_of_int n
                                   ++ py ": " ++ t ++ [nl; nl]
                     | None => [nl; nl] ++ py "# Chapter " ++ str_of_int n
                                 ++ [nl; nl]
                     end; text])
            else (n, full_text ++ [text])).
Proof.
  intros Htype Hdec Hlen headers text. repeat split.
  - apply soup_find_all_named.
  - apply first_title_Some.
  - apply first_title_Some.
  - apply first_title_None.
  - apply first_title_None.
  - unfold process_item. rewrite Htype, Z.eqb_refl, Hdec. simpl.
    replace (length (strip (clean_html_content content)) <? 100)%nat
      with false by (symmetry; apply Nat.ltb_ge; lia).
    unfold add_section. destruct (is_chapter content); [|done].
    rewrite <- app_assoc. simpl. do 4 f_equal.
    unfold chapter_marker, chapter_title.
    destruct (first_title _) as [t|] eqn:Et; [|done].
    simpl. by rewrite (first_title_truthy _ _ Et).
Qed.

(* ===================================================================== *)
(** * The loop over the items *)
(* ===================================================================== *)

Lemma for_each_app {S A} (body : S -> A -> res S) st (l1 l2 : list A) :
  for_each body st (l1 ++ l2) =
    match for_each body st l1 with
    | inl e => inl e
    | inr st' => for_each body st' l2
    end.
Proof.
  revert st. induction l1 as [|a l1 IH]; intros st; simpl; [done|].
  destruct (body st a); [done|apply IH].
Qed.

Lemma chapter_marker_is_marker n t :
  is_chapter_marker (chapter_marker n t) = true.
Proof.
  unfold is_chapter_marker, chapter_marker.
  destruct (opt_truthy t); rewrite (app_assoc [nl; nl]); apply starts_with_app.
Qed.

Lemma title_line_not_marker t : is_chapter_marker (title_line t) = false.
Proof. done. Qed.

Lemma trimmed_not_marker s : trimmed s -> is_chapter_marker s = false.
Proof.
  intros [Hl _]. destruct s as [|c s]; [done|].
  unfold is_chapter_marker. simpl in *.
  destruct (c =? nl)%N eqn:E; [|done].
  apply N.eqb_eq in E. by subst c.
Qed.

Section Loop.
Context `{Platform}.

Lemma clean_html_content_normal content :
  normalize_ws (clean_html_content content) = clean_html_content content.
Proof.
  apply normalize_ws_fixed;
    [apply normalize_ws_single_spaced|apply normalize_ws_trimmed].
Qed.

Lemma clean_html_content_trimmed content : trimmed (clean_html_content content).
Proof. apply normalize_ws_trimmed. Qed.

(** The loop body, by what the item is. *)
Lemma process_item_markup st item content :
  item_markup item = Some content ->
  process_item st item =
    inr (if passes_length_filter content
         then add_section st (is_chapter content) (chapter_title content)
                (clean_html_content content)
         else st).
Proof.
  unfold item_markup, process_item, passes_length_filter.
  destruct (item_type item =? ITEM_DOCUMENT)%Z; [|done].
  destruct (utf8_decode (item_content item)) as [e|c]; [done|].
  intros [= ->]. cbn [res_bind].
  destruct (Nat.ltb_spec (length (strip (clean_html_content content))) 100);
    destruct (Nat.leb_spec 100 (length (strip (clean_html_content content))));
    (done || lia).
Qed.

Lemma process_item_no_markup st item st' :
  item_markup item = None -> process_item st item = inr st' -> st' = st.
Proof.
  unfold item_markup, process_item.
  destruct (item_type item =? ITEM_DOCUMENT)%Z; [|by intros _ [= <-]].
  by destruct (utf8_decode (item_content item)).
Qed.

Lemma for_each_markers items n0 ft0 n ft :
  for_each process_item (n0, ft0) items = inr (n, ft) ->
  List.filter is_chapter_marker ft =
    List.filter is_chapter_marker ft0
      ++ imap (fun i item => chapter_marker (n0 + Z.of_nat i) (item_title item))
              (List.filter kept_chapter items)
  /\ n = (n0 + Z.of_nat (length (List.filter kept_chapter items)))%Z.
Proof.
  revert n0 ft0. induction items as [|item items IH]; intros n0 ft0; simpl.
  - intros [= <- <-]. rewrite app_nil_r. split; [done|lia].
  - destruct (process_item (n0, ft0) item) as [e|st'] eqn:Hstep; [done|].
    destruct (item_markup item) as [content|] eqn:Hm.
    + assert (kept_chapter item
              = passes_length_filter content && is_chapter content) as Hk
        by (unfold kept_chapter; by rewrite Hm).
      assert (item_title item = chapter_title content) as Ht
        by (unfold item_title; by rewrite Hm).
      rewrite Hk. rewrite (process_item_markup _ _ _ Hm) in Hstep.
      injection Hstep as <-.
      destruct (passes_length_filter content); simpl; [|apply IH].
      destruct (is_chapter content); simpl.
      * intros Hrun. apply IH in Hrun as [-> ->]. split.
        -- rewrite <- app_assoc. rewrite !List.filter_app. simpl.
           rewrite chapter_marker_is_marker.
           rewrite (trimmed_not_marker _ (clean_html_content_trimmed content)).
           simpl. rewrite <- app_assoc. simpl. rewrite Z.add_0_r, Ht.
           do 2 f_equal. apply imap_ext. intros i x _. simpl. f_equal. lia.
        -- simpl. lia.
      * intros Hrun. apply IH in Hrun as [-> ->]. split; [|done].
        rewrite List.filter_app. simpl.
        rewrite (trimmed_not_marker _ (clean_html_content_trimmed content)).
        by rewrite app_nil_r.
    + assert (kept_chapter item = false) as ->
        by (unfold kept_chapter; by rewrite Hm).
      destruct st' as [n1 ft1].
      apply (process_item_no_markup _ _ _ Hm) in Hstep as [= -> ->].
      apply IH.
Qed.

(** Every fragment the loop adds is a marker or the text of a section of
    at least 100 characters. *)
Lemma for_each_fragments items n0 ft0 n ft :
  for_each process_item (n0, ft0) items = inr (n, ft) ->
  exists added,
    ft = ft0 ++ added
    /\ Forall (fun frag =>
                 is_chapter_marker frag = true
                 \/ (normalize_ws frag = frag /\ 100 <= length frag)%nat)
              added.
Proof.
  revert n0 ft0. induction items as [|item items IH]; intros n0 ft0; simpl.
  - intros [= <- <-]. exists []. by rewrite app_nil_r.
  - destruct (process_item (n0, ft0) item) as [e|[n1 ft1]] eqn:Hstep; [done|].
    intros (added & -> & Hadded)%IH.
    destruct (item_markup item) as [content|] eqn:Hm.
    + rewrite (process_item_markup _ _ _ Hm) in Hstep.
      injection Hstep as Hstep.
      destruct (passes_length_filter content) eqn:Hlen;
        [|injection Hstep as <- <-; by exists added].
      assert (normalize_ws (clean_html_content content)
                = clean_html_content content
              /\ (100 <= length (clean_html_content content))%nat) as Htext.
      { split; [apply clean_html_content_normal|].
        apply Nat.leb_le in Hlen. etrans; [done|apply strip_length]. }
      unfold add_section in Hstep.
      destruct (is_chapter content); injection Hstep as <- <-.
      * eexists (_ :: _ :: added). rewrite <- !app_assoc. split; [done|].
        constructor; [left; apply chapter_marker_is_marker|].
        constructor; [by right|done].
      * eexists (_ :: added). rewrite <- !app_assoc. split; [done|].
        constructor; [by right|done].
    + apply (process_item_no_markup _ _ _ Hm) in Hstep as [= -> ->].
      by exists added.
Qed.
End Loop.


(** C2.  A document item whose extracted text has fewer than 100
    characters leaves the state of the loop as it was, so the run is the
    run without the item; and whenever a run goes through, what follows the
    title line is markers and normalised texts of at least 100
    characters. *)
Theorem short_item_contributes_nothing `{Platform}
    (book_title : str) (pre post : list EpubItem) (item : EpubItem)
    (content : str) :
  item_type item = ITEM_DOCUMENT ->
  utf8_decode (item_content item) = inr content ->
  (length (strip (clean_html_content content)) < 100)%nat ->
  (forall st, process_item st item = inr st)
  /\ convert_items book_title (pre ++ item :: post)
     = convert_items book_title (pre ++ post)
  /\ forall n full_text,
       convert_items book_title (pre ++ item :: post) = inr (n, full_text) ->
       exists sections,
         full_text = title_line book_title :: sections
         /\ Forall (fun frag =>
                      is_chapter_marker frag = true
                      \/ (normalize_ws frag = frag /\ 100 <= length frag)%nat)
                   sections.
Proof.
  intros Htype Hdec Hshort.
  assert (forall st, process_item st item = inr st) as Hskip.
  { intros st. unfold process_item. rewrite Htype, Z.eqb_refl, Hdec. simpl.
    by replace (length (strip (clean_html_content content)) <? 100)%nat
      with true by (symmetry; apply Nat.ltb_lt; lia). }
  split; [done|]. split.
  - unfold convert_items. rewrite !for_each_app.
    destruct (for_each process_item _ pre) as [e|st]; [done|].
    simpl. by rewrite Hskip.
  - intros n full_text Hrun. by apply for_each_fragments in Hrun.
Qed.

(* ===================================================================== *)
(** * The file system *)
(* ===================================================================== *)

Lemma entry_at_set_eq f e w : f <> [] -> entry_at (set_entry f e w) f = Some e.
Proof. destruct f; [done|]. intros _. simpl. apply lookup_insert_eq. Qed.

Lemma entry_at_set_ne f q e w :
  f <> q -> entry_at (set_entry f e w) q = entry_at w q.
Proof. destruct q; [done|]. intros Hne. simpl. by apply lookup_insert_ne. Qed.

Lemma length_removelast {A} (l : list A) :
  l <> [] -> S (length (removelast l)) = length l.
Proof.
  induction l as [|a l IH]; [done|]. intros _.
  destruct l as [|b l]; [done|]. simpl in *. f_equal. by apply IH.
Qed.

Lemma join_length_head sep (x : str) (l : list str) :
  (length x <= length (join sep (x :: l)))%nat.
Proof. destruct l; simpl; [lia|]. rewrite length_app. lia. Qed.

Section FileSystem.
Context `{Platform}.

(** [makedirs] only makes directories on the way to its argument. *)
Lemma makedirs_from_other todo done w r w' q :
  makedirs_from done todo w = (r, w') ->
  (q = [] \/ length done + length todo < length q)%nat ->
  entry_at w' q = entry_at w q.
Proof.
  revert done w. induction todo as [|c todo IH]; intros done w; simpl.
  - by intros [= _ <-].
  - intros Hrun Hq.
    assert (q = [] \/ length (done ++ [c]) + length todo < length q)%nat as Hq'.
    { destruct Hq as [->|Hq]; [by left|right].
      rewrite length_app. simpl. lia. }
    destruct (entry_at w (done ++ [c])) as [[| |]|] eqn:E.
    + by apply (IH _ _ Hrun).
    + by injection Hrun as _ <-.
    + by injection Hrun as _ <-.
    + rewrite (IH _ _ Hrun Hq'). apply entry_at_set_ne.
      intros <-. destruct Hq as [Hq|Hq].
      * by destruct done.
      * rewrite length_app in Hq. simpl in Hq. lia.
Qed.

Lemma makedirs_destination p w r w' :
  makedirs (dirname (abspath p)) w = (r, w') ->
  destination p w' = destination p w.
Proof.
  intros Hrun. unfold destination.
  apply (makedirs_from_other _ _ _ _ _ _ Hrun).
  destruct (abspath p) as [|c f] eqn:E; [by left|right].
  unfold dirname.
  assert (Hl := length_removelast (c :: f) ltac:(done)).
  change (length (@nil (list N))) with 0%nat. lia.
Qed.

Lemma open_w_cases p w :
  (exists e, open_w p w = (inl e, w))
  \/ (abspath p <> []
      /\ open_w p w = (inr (abspath p), set_entry (abspath p) (TextFile []) w)).
Proof.
  unfold open_w. destruct (abspath p) as [|c f] eqn:E.
  - left. simpl. eauto.
  - destruct (entry_at w (c :: f)) as [[| |]|];
      [left; eauto| | |];
      (destruct (entry_at w (dirname (c :: f))) as [[| |]|];
       [right; by split|left; eauto..]).
Qed.

Lemma write_cases f data w :
  f <> [] ->
  entry_at w f = Some (TextFile []) ->
  (exists w', write f data w = (inr tt, w')
              /\ entry_at w' f = Some (TextFile data))
  \/ (exists e w' k,
        write f data w = (inl e, w')
        /\ (exn_kind e = OSError \/ exn_kind e = UnicodeEncodeError)
        /\ (k < length data)%nat
        /\ entry_at w' f = Some (TextFile (take k data))).
Proof.
  intros Hf Hempty. unfold write.
  destruct (existsb is_surrogate data) eqn:Es.
  - right. eexists _, w, 0%nat. split; [done|]. split; [by right|].
    split; [|done]. destruct data; [done|simpl; lia].
  - destruct (write_budget w) as [n|].
    + destruct (Nat.ltb_spec n (length data)).
      * right. eexists _, _, n. split; [done|]. split; [by left|].
        split; [done|]. by apply (entry_at_set_eq f _ w).
      * left. eexists. split; [done|]. by apply (entry_at_set_eq f _ w).
    + left. eexists. split; [done|]. by apply entry_at_set_eq.
Qed.

Lemma path_exists_None p w :
  entry_at w (abspath p) = None -> path_exists p w = (inr false, w).
Proof.
  intros Hp. unfold path_exists. rewrite Hp.
  by rewrite bool_decide_eq_false_2 by (by intros [? ?]).
Qed.

Lemma path_exists_Some p w e :
  entry_at w (abspath p) = Some e -> path_exists p w = (inr true, w).
Proof.
  intros Hp. unfold path_exists. rewrite Hp.
  by rewrite bool_decide_eq_true_2 by eauto.
Qed.

Lemma path_exists_cases p w :
  (entry_at w (abspath p) = None /\ path_exists p w = (inr false, w))
  \/ (exists e, entry_at w (abspath p) = Some e
                /\ path_exists p w = (inr true, w)).
Proof.
  destruct (entry_at w (abspath p)) as [e|] eqn:E.
  - right. exists e. split; [done|]. by apply (path_exists_Some _ _ e).
  - left. split; [done|]. by apply path_exists_None.
Qed.
End FileSystem.

(** C5, as the code has it.  A run that ends well leaves the whole text at
    the destination.  A run that raises leaves the destination as it was,
    unless it is the write itself that failed: then the file, emptied when
    it was opened, holds the first [k] characters of the text, for some [k]
    below its length. *)
Theorem output_whole_unless_write_fails `{Platform}
    (epub_path output_path : str) (w : world) :
  match epub_to_text epub_path output_path w with
  | (inr _, w') =>
      exists book size rendered,
        entry_at w (abspath epub_path) = Some (EpubFile book size)
        /\ render book = inr rendered
        /\ destination output_path w' = Some (TextFile (snd rendered))
  | (inl e, w') =>
      destination output_path w' = destination output_path w
      \/ exists book size rendered k,
           entry_at w (abspath epub_path) = Some (EpubFile book size)
           /\ render book = inr rendered
           /\ (exn_kind e = OSError \/ exn_kind e = UnicodeEncodeError)
           /\ (k < length (snd rendered))%nat
           /\ destination output_path w' = Some (TextFile (take k (snd rendered)))
  end.
Proof.
  unfold epub_to_text, io_bind.
  destruct (path_exists_cases epub_path w) as [[_ ->]|(en & Hin & ->)];
    simpl; [by left|].
  unfold read_epub. rewrite Hin.
  destruct en as [|data|book size]; [by left..|].
  set (w1 := World (fs w) (write_budget w) (read_log w ++ [epub_path])).
  unfold io_lift.
  destruct (render book) as [e|[book_title text]] eqn:Hrender; [by left|].
  destruct (makedirs _ w1) as [[e|[]] w2] eqn:Hmk;
    apply makedirs_destination in Hmk; [by left|].
  destruct (open_w_cases output_path w2) as [[e ->]|[Hne ->]]; [by left|].
  set (w3 := set_entry _ _ w2).
  destruct (write_cases (abspath output_path) text w3 Hne)
    as [(w4 & -> & Hd)|(e & w4 & k & -> & Hk & Hlt & Hd)].
  - by apply entry_at_set_eq.
  - by exists book, size, (book_title, text).
  - right. by exists book, size, (book_title, text), k.
Qed.

(** C9.  When the input path names nothing, [main] prints
    ["Error: EPUB file not found: "] and the path on the error stream,
    prints nothing else and exits with status 1; the world is as it was:
    nothing was handed to the container reader, no file and no directory
    was made. *)
Theorem missing_input_reported `{Platform} (a : args) (w : world) :
  entry_at w (abspath (input a)) = None ->
  epub_to_text (input a) (output a) w
    = (inl (Exn FileNotFoundError (py "EPUB file not found: " ++ input a)), w)
  /\ main a w
     = ({| stdout := [];
           stderr := [py "Error: " ++ py "EPUB file not found: " ++ input a];
           exit_code := 1 |}, w)
  /\ contains (py "EPUB file not found")
       (py "EPUB file not found: " ++ input a).
Proof.
  intros Hmissing.
  assert (epub_to_text (input a) (output a) w
          = (inl (Exn FileNotFoundError
                    (py "EPUB file not found: " ++ input a)), w)) as Hrun.
  { unfold epub_to_text, io_bind. by rewrite path_exists_None. }
  split; [done|]. split.
  - unfold main. by rewrite Hrun.
  - exists [], (py ": " ++ input a). done.
Qed.

(** C10.  When the book has no title entry, the run raises the
    [IndexError] of [[][0]] right after the book was read: [main] prints
    ["Error: list index out of range"] on the error stream and exits with
    status 1, and the file tree is as it was. *)
Theorem missing_title_is_index_error `{Platform}
    (a : args) (w : world) (book : EpubBook) (size : Z) :
  entry_at w (abspath (input a)) = Some (EpubFile book size) ->
  dc_title book = [] ->
  let w' := World (fs w) (write_budget w) (read_log w ++ [input a]) in
  epub_to_text (input a) (output a) w
    = (inl (Exn IndexError (py "list index out of range")), w')
  /\ main a w
     = ({| stdout := [];
           stderr := [py "Error: list index out of range"];
           exit_code := 1 |}, w')
  /\ fs w' = fs w.
Proof.
  intros Hbook Htitle w'.
  assert (epub_to_text (input a) (output a) w
          = (inl (Exn IndexError (py "list index out of range")), w')) as Hrun.
  { unfold epub_to_text, io_bind.
    rewrite (path_exists_Some _ _ _ Hbook). simpl.
    unfold read_epub. rewrite Hbook.
    unfold io_lift, render. by rewrite Htitle. }
  split; [done|]. split; [|done].
  unfold main. by rewrite Hrun.
Qed.

(* ===================================================================== *)
(** * Runs on the sample book *)
(* ===================================================================== *)

Section Runs.
#[local] Existing Instance Sample.platform.

(** The sample book gives the fragments written down for it. *)
Example sample_book_fragments :
  convert_items (py "Test Book") (book_items Sample.book)
    = inr (4%Z, Sample.fragments).
Proof. vm_compute. reflexivity. Qed.

(** A keyword that only an attribute has, in upper case, makes the item a
    chapter; the text of the item has no keyword. *)
Example keyword_in_attribute_counts :
  is_chapter (Sample.soup_markup Sample.doc_attr) = true
  /\ re_search chapter_re
       (lower (clean_html_content (Sample.soup_markup Sample.doc_attr)))
     = false.
Proof. split; vm_compute; reflexivity. Qed.

(** A run that ends well, with the file and its directory made. *)
Example sample_run :
  let '(out, w) := main Sample.convert_book Sample.world0 in
  exit_code out = 0%Z
  /\ stderr out = []
  /\ entry_at w [py "out"; py "new"] = Some Dir
  /\ entry_at w [py "out"; py "new"; py "test.txt"]
     = Some (TextFile (join [nl] Sample.fragments)).
Proof. vm_compute. repeat split. Qed.


Lemma short_item_contributes_nothing_witness :
  item_type (Sample.document Sample.doc_nav) = ITEM_DOCUMENT
  /\ utf8_decode (item_content (Sample.document Sample.doc_nav))
     = inr (Sample.soup_markup Sample.doc_nav)
  /\ (length (strip (clean_html_content (Sample.soup_markup Sample.doc_nav)))
      < 100)%nat
  /\ convert_items (py "Test Book")
       ([Sample.document Sample.doc_intro; Sample.picture]
          ++ Sample.document Sample.doc_nav
          :: [Sample.document Sample.doc_one])
     = convert_items (py "Test Book")
         ([Sample.document Sample.doc_intro; Sample.picture]
            ++ [Sample.document Sample.doc_one]).
Proof.
  split; [reflexivity|]. split; [vm_compute; reflexivity|].
  split; [vm_compute; lia|].
  apply (short_item_contributes_nothing (py "Test Book")
           [Sample.document Sample.doc_intro; Sample.picture]
           [Sample.document Sample.doc_one]
           (Sample.document Sample.doc_nav)
           (Sample.soup_markup Sample.doc_nav)).
  - reflexivity.
  - vm_compute. reflexivity.
  - vm_compute. lia.
Defined.

(** The empty h1 of the sample is passed over and the h3 gives the
    title. *)
Lemma title_from_first_heading_witness :
  item_type (Sample.document Sample.doc_attr) = ITEM_DOCUMENT
  /\ utf8_decode (item_content (Sample.document Sample.doc_attr))
     = inr (Sample.soup_markup Sample.doc_attr)
  /\ (100 <= length (strip (clean_html_content
                              (Sample.soup_markup Sample.doc_attr))))%nat
  /\ chapter_title (Sample.soup_markup Sample.doc_attr)
     = Some (py "Afterword")
  /\ process_item (3%Z, []) (Sample.document Sample.doc_attr)
     = inr (4%Z, [chapter_marker 3 (Some (py "Afterword"));
                  py "Afterword" ++ Sample.filler]).
Proof.
  split; [reflexivity|]. split; [vm_compute; reflexivity|].
  split; [vm_compute; lia|].
  destruct (title_from_first_heading (Sample.document Sample.doc_attr)
              (Sample.soup_markup Sample.doc_attr) 3%Z [])
    as (_ & Hsome & _ & Hstep).
  - reflexivity.
  - vm_compute. reflexivity.
  - vm_compute. lia.
  - split.
    + apply Hsome.
      exists [Sample.el "h1" []],
             (Sample.el "h3" [Text (py "Afterword")]), [].
      split; [vm_compute; reflexivity|].
      split; [constructor; [|constructor]; by intros [? _]|].
      split; [|vm_compute; reflexivity].
      split; [done|vm_compute; lia].
    + rewrite Hstep. vm_compute. reflexivity.
Defined.


(** The script of the sample has the keyword: the item is a chapter, and
    its text is the paragraph alone. *)
Example keyword_in_script_counts :
  is_chapter (Sample.soup_markup Sample.doc_script) = true
  /\ is_chapter (Sample.soup_markup Sample.doc_script') = false
  /\ clean_html_content (Sample.soup_markup Sample.doc_script)
     = Sample.filler.
Proof. repeat split; vm_compute; reflexivity. Qed.

Lemma missing_input_reported_witness :
  entry_at Sample.world0 (abspath (input Sample.convert_nothing)) = None
  /\ main Sample.convert_nothing Sample.world0
     = ({| stdout := [];
           stderr := [py "Error: EPUB file not found: books/missing.epub"];
           exit_code := 1 |}, Sample.world0).
Proof.
  split; [vm_compute; reflexivity|].
  apply (missing_input_reported Sample.convert_nothing Sample.world0).
  vm_compute. reflexivity.
Defined.

Lemma missing_title_is_index_error_witness :
  entry_at Sample.world0 (abspath (input Sample.convert_untitled))
    = Some (EpubFile Sample.untitled_book 2048)
  /\ dc_title Sample.untitled_book = []
  /\ main Sample.convert_untitled Sample.world0
     = ({| stdout := [];
           stderr := [py "Error: list index out of range"];
           exit_code := 1 |},
        World Sample.disk None [py "books/untitled.epub"]).
Proof.
  split; [vm_compute; reflexivity|]. split; [reflexivity|].
  apply (missing_title_is_index_error Sample.convert_untitled Sample.world0
           Sample.untitled_book 2048).
  - vm_compute. reflexivity.
  - reflexivity.
Defined.

(** C5 as it is stated fails.  On a device that takes five more
    characters the run raises [OSError] from the write, and the file that
    held an earlier conversion is left with the first five characters of
    the new text: neither what it was nor the whole text. *)
Lemma full_device_leaves_partial_file :
  destination Sample.old_output Sample.world_full
    = Some (TextFile (py "an earlier conversion"))
  /\ (exists e,
        fst (epub_to_text (py "books/test.epub") Sample.old_output
               Sample.world_full) = inl e
        /\ exn_kind e = OSError)
  /\ destination Sample.old_output
       (snd (epub_to_text (py "books/test.epub") Sample.old_output
               Sample.world_full))
     = Some (TextFile (py "# Tes"))
  /\ ~ writes_all_or_nothing (py "books/test.epub") Sample.old_output
         Sample.world_full.
Proof.
  split; [vm_compute; reflexivity|].
  split; [eexists; split; vm_compute; reflexivity|].
  split; [vm_compute; reflexivity|].
  unfold writes_all_or_nothing. vm_compute. intros [=].
Qed.
End Runs.

(* ===================================================================== *)
(** * What a run does to the world *)
(* ===================================================================== *)

Section Run.
Context `{Platform}.

(** [makedirs] changes nothing but entries that were missing on the way to
    its argument, which become directories. *)
Lemma makedirs_from_effect todo dirs w r w' :
  makedirs_from dirs todo w = (r, w') ->
  write_budget w' = write_budget w
  /\ read_log w' = read_log w
  /\ forall q,
       entry_at w' q = entry_at w q
       \/ (entry_at w q = None /\ entry_at w' q = Some Dir
           /\ q `prefix_of` dirs ++ todo).
Proof.
  revert dirs w. induction todo as [|c todo IH]; intros dirs w; simpl.
  - intros [= _ <-]. by auto.
  - intros Hrun.
    assert (Hp : dirs ++ [c] <> []) by (by destruct dirs).
    assert (Happ : (dirs ++ [c]) ++ todo = dirs ++ c :: todo)
      by (by rewrite <- app_assoc).
    destruct (entry_at w (dirs ++ [c])) as [[| |]|] eqn:E.
    + apply IH in Hrun. by rewrite Happ in Hrun.
    + injection Hrun as _ <-. by auto.
    + injection Hrun as _ <-. by auto.
    + apply IH in Hrun as (Hb & Hl & Hq). rewrite Happ in Hq.
      split; [done|]. split; [done|]. intros q.
      destruct (decide (q = dirs ++ [c])) as [->|Hne].
      * right. split; [done|]. split.
        -- destruct (Hq (dirs ++ [c])) as [->|(Hnone & _)].
           ++ by apply entry_at_set_eq.
           ++ by rewrite entry_at_set_eq in Hnone.
        -- exists todo. by rewrite <- app_assoc.
      * destruct (Hq q) as [->|(Hnone & Hdir & Hpre)].
        -- left. by apply entry_at_set_ne.
        -- right. by rewrite entry_at_set_ne in Hnone.
Qed.

Lemma makedirs_from_keeps todo dirs w r w' q e :
  makedirs_from dirs todo w = (r, w') ->
  entry_at w q = Some e -> entry_at w' q = Some e.
Proof.
  intros (_ & _ & Hq)%makedirs_from_effect He.
  destruct (Hq q) as [->|(Hnone & _)]; [done|congruence].
Qed.

(** After [makedirs] every directory on the way is there. *)
Lemma makedirs_from_dirs todo dirs w w' k :
  makedirs_from dirs todo w = (inr tt, w') ->
  entry_at w dirs = Some Dir ->
  entry_at w' (dirs ++ take k todo) = Some Dir.
Proof.
  revert dirs w k. induction todo as [|c todo IH]; intros dirs w k.
  - simpl. intros [= <-]. by rewrite take_nil, app_nil_r.
  - intros Hrun Hdone. destruct k as [|k].
    + rewrite take_0, app_nil_r. by apply (makedirs_from_keeps _ _ _ _ _ _ _ Hrun).
    + simpl in *.
      assert (Hp : dirs ++ [c] <> []) by (by destruct dirs).
      replace (dirs ++ c :: take k todo) with ((dirs ++ [c]) ++ take k todo)
        by (by rewrite <- app_assoc).
      destruct (entry_at w (dirs ++ [c])) as [[| |]|] eqn:E; [|done..|].
      * by apply (IH _ w).
      * apply (IH _ _ _ Hrun). by apply entry_at_set_eq.
Qed.


Lemma write_inr f data w w' :
  write f data w = (inr tt, w') ->
  existsb is_surrogate data = false
  /\ fs w' = <[f := TextFile data]> (fs w)
  /\ read_log w' = read_log w
  /\ (write_budget w = None -> write_budget w' = None).
Proof.
  unfold write. destruct (existsb is_surrogate data); [done|].
  destruct (write_budget w) as [n|] eqn:Eb.
  - destruct (n <? length data)%nat; [done|].
    intros [= <-]. by repeat split.
  - intros [= <-]. by repeat split.
Qed.

Lemma write_other f data w r w' q :
  write f data w = (r, w') -> q <> f -> entry_at w' q = entry_at w q.
Proof.
  unfold write. intros Hrun Hq.
  assert (forall e b l, entry_at (World (<[f := e]> (fs w)) b l) q = entry_at w q)
    as Hset.
  { intros e b l. destruct q; [done|]. simpl. by apply lookup_insert_ne. }
  destruct (existsb is_surrogate data); [by injection Hrun as _ <-|].
  destruct (write_budget w) as [n|].
  - destruct (n <? length data)%nat; injection Hrun as _ <-; apply Hset.
  - injection Hrun as _ <-. apply Hset.
Qed.

Lemma open_w_inr p w f w' :
  open_w p w = (inr f, w') ->
  f = abspath p /\ f <> []
  /\ w' = set_entry f (TextFile []) w
  /\ entry_at w f <> Some Dir
  /\ entry_at w (dirname f) = Some Dir.
Proof.
  unfold open_w. destruct (abspath p) as [|c l] eqn:Ep; [done|].
  destruct (entry_at w (c :: l)) as [[| |]|] eqn:E; [done|..];
    (destruct (entry_at w (dirname (c :: l))) as [[| |]|] eqn:Ed; [|done..]);
    intros [= <- <-]; rewrite ?E, ?Ed; by repeat split.
Qed.

Lemma open_w_other p w r w' q :
  open_w p w = (r, w') -> q <> abspath p -> entry_at w' q = entry_at w q.
Proof.
  intros Hrun Hq. destruct (open_w_cases p w) as [[e He]|[_ He]];
    rewrite He in Hrun; injection Hrun as _ <-; [done|].
  by apply entry_at_set_ne.
Qed.

(** A run that ends well, step by step. *)
Lemma epub_to_text_inr epub_path output_path w msg w' :
  epub_to_text epub_path output_path w = (inr msg, w') ->
  exists book size book_title text w2,
    entry_at w (abspath epub_path) = Some (EpubFile book size)
    /\ render book = inr (book_title, text)
    /\ makedirs (dirname (abspath output_path)) (after_read epub_path w)
       = (inr tt, w2)
    /\ open_w output_path w2
       = (inr (abspath output_path),
          set_entry (abspath output_path) (TextFile []) w2)
    /\ write (abspath output_path) text
         (set_entry (abspath output_path) (TextFile []) w2) = (inr tt, w')
    /\ msg = success_message book_title output_path.
Proof.
  unfold epub_to_text, io_bind.
  destruct (path_exists_cases epub_path w) as [[_ ->]|(en & Hin & ->)];
    simpl; [done|].
  unfold read_epub. rewrite Hin. destruct en as [|data|book size]; [done..|].
  fold (after_read epub_path w). unfold io_lift.
  destruct (render book) as [e|[book_title text]] eqn:Hrender; [done|].
  destruct (makedirs _ _) as [[e|[]] w2] eqn:Hmk; [done|].
  destruct (open_w_cases output_path w2) as [[e He]|[Hne He]];
    rewrite He; [done|].
  destruct (write _ _ _) as [[e|[]] w4] eqn:Hw; [done|].
  intros [= <- <-]. by exists book, size, book_title, text, w2.
Qed.

(** The destination after a run that ended well. *)
Lemma epub_to_text_written epub_path output_path w msg w' :
  epub_to_text epub_path output_path w = (inr msg, w') ->
  exists book size book_title text,
    entry_at w (abspath epub_path) = Some (EpubFile book size)
    /\ render book = inr (book_title, text)
    /\ msg = success_message book_title output_path
    /\ destination output_path w' = Some (TextFile text).
Proof.
  intros (book & size & book_title & text & w2 & Hin & Hr & _ & Ho & Hw & ->)
    %epub_to_text_inr.
  exists book, size, book_title, text. repeat split; [done..|].
  apply open_w_inr in Ho as (_ & Hne & _).
  apply write_inr in Hw as (_ & Hfs & _).
  unfold destination. destruct (abspath output_path); [done|].
  simpl. rewrite Hfs. apply lookup_insert_eq.
Qed.
End Run.

Section RunFacts.
Context `{Platform}.


Lemma take_dirname_ne (f : list str) k : f <> [] -> take k (dirname f) <> f.
Proof.
  intros Hf Heq. apply length_removelast in Hf.
  assert (length (take k (dirname f)) = length f) as Hl by (by rewrite Heq).
  rewrite length_take in Hl. unfold dirname in Hl. lia.
Qed.



Lemma getsize_text p w data :
  destination p w = Some (TextFile data) ->
  getsize p w = (inr (utf8_size (on_disk data)), w).
Proof. unfold destination, getsize. by intros ->. Qed.

Lemma render_inr book book_title text :
  render book = inr (book_title, text) ->
  exists attrs more n full_text,
    dc_title book = (book_title, attrs) :: more
    /\ convert_items book_title (book_items book) = inr (n, full_text)
    /\ text = join [nl] full_text.
Proof.
  unfold render. destruct (dc_title book) as [|[t attrs] more]; [done|].
  simpl.
  destruct (convert_items t (book_items book)) as [e|[n ft]] eqn:Hc; [done|].
  simpl. intros [= <- <-]. by exists attrs, more, n, ft.
Qed.

Lemma passed_over_skip st item :
  passed_over item -> process_item st item = inr st.
Proof.
  unfold process_item. intros [Hother|(content & Hdec & Hshort)].
  - destruct (Z.eqb_spec (item_type item) ITEM_DOCUMENT); done.
  - destruct (item_type item =? ITEM_DOCUMENT)%Z; [|done].
    rewrite Hdec. simpl.
    by replace (length (strip (clean_html_content content)) <? 100)%nat
      with true by (symmetry; apply Nat.ltb_lt; lia).
Qed.
End RunFacts.


(** X2.  After a run that ended well, every directory on the way to the
    destination is there. *)
Theorem run_makes_directories `{Platform}
    (epub_path output_path : str) (w : world) (msg : str) (w' : world)
    (k : nat) :
  epub_to_text epub_path output_path w = (inr msg, w') ->
  entry_at w' (take k (dirname (abspath output_path))) = Some Dir.
Proof.
  intros (book & size & book_title & text & w2 & _ & _ & Hmk & Ho & Hw & _)
    %epub_to_text_inr.
  pose proof (open_w_inr _ _ _ _ Ho) as (_ & Hne & _).
  pose proof (take_dirname_ne _ k Hne) as Hq.
  rewrite (write_other _ _ _ _ _ _ Hw Hq).
  rewrite (open_w_other _ _ _ _ _ Ho Hq).
  by apply (makedirs_from_dirs _ [] _ _ k Hmk).
Qed.




(** X5.  The verbose report after a conversion that ended well, on a
    stream that takes its four lines: the message, the two paths, and as
    the size of the file the length of the UTF-8 encoding of the text that
    was written, every ['\n'] of it counted as [os.linesep]. *)
Theorem verbose_report `{Platform}
    (a : args) (w : world) (book : EpubBook) (size : Z)
    (book_title text msg : str) (w' : world) :
  let lines :=
    [py "Successfully converted '" ++ book_title
       ++ py "' to text format at " ++ output a;
     [nl] ++ py "Input file: " ++ input a;
     py "Output file: " ++ output a;
     py "File size: " ++ str_of_int (utf8_size (on_disk text))
       ++ py " bytes"] in
  verbose a = true ->
  entry_at w (abspath (input a)) = Some (EpubFile book size) ->
  render book = inr (book_title, text) ->
  epub_to_text (input a) (output a) w = (inr msg, w') ->
  Forall (fun line => print_error line = None) lines ->
  main a w = ({| stdout := lines; stderr := []; exit_code := 0 |}, w').
Proof.
  intros lines Hv Hin Hr Hrun Hlines. unfold main. rewrite Hrun, Hv.
  apply epub_to_text_written in Hrun
    as (book' & size' & book_title' & text' & Hin' & Hr' & -> & Hd).
  rewrite Hin in Hin'. injection Hin' as <- <-.
  rewrite Hr in Hr'. injection Hr' as <- <-.
  rewrite (getsize_text _ _ _ Hd).
  apply Forall_cons in Hlines as [H1 Hlines].
  apply Forall_cons in Hlines as [H2 Hlines].
  apply Forall_cons in Hlines as [H3 Hlines].
  apply Forall_cons in Hlines as [H4 _].
  unfold print_out, success_message. by rewrite H1, H2, H3, H4.
Qed.

(* ===================================================================== *)
(** * More on the loop and on what is written *)
(* ===================================================================== *)

Lemma join_head sep (x : str) (l : list str) :
  exists rest, join sep (x :: l) = x ++ rest.
Proof.
  destruct l as [|y l]; simpl.
  - exists []. by rewrite app_nil_r.
  - by eexists.
Qed.

Section LoopFacts.
Context `{Platform}.

Lemma for_each_skip items st :
  Forall passed_over items -> for_each process_item st items = inr st.
Proof.
  induction 1 as [|item items Hitem _ IH]; simpl; [done|].
  by rewrite (passed_over_skip _ _ Hitem).
Qed.

Lemma process_item_undecodable st item e :
  item_type item = ITEM_DOCUMENT ->
  utf8_decode (item_content item) = inl e ->
  process_item st item = inl e.
Proof.
  intros Htype Hdec. unfold process_item.
  by rewrite Htype, Z.eqb_refl, Hdec.
Qed.

Lemma for_each_texts items n0 ft0 n ft :
  for_each process_item (n0, ft0) items = inr (n, ft) ->
  List.filter (fun frag => negb (is_chapter_marker frag)) ft =
    List.filter (fun frag => negb (is_chapter_marker frag)) ft0
      ++ omap kept_text items.
Proof.
  revert n0 ft0. induction items as [|item items IH]; intros n0 ft0; simpl.
  - intros [= <- <-]. by rewrite app_nil_r.
  - destruct (process_item (n0, ft0) item) as [e|st'] eqn:Hstep; [done|].
    unfold kept_text at 1.
    destruct (item_markup item) as [content|] eqn:Hm.
    + rewrite (process_item_markup _ _ _ Hm) in Hstep.
      injection Hstep as <-.
      pose proof (trimmed_not_marker _ (clean_html_content_trimmed content))
        as Htext.
      destruct (passes_length_filter content); simpl; [|apply IH].
      destruct (is_chapter content); simpl; intros ->%IH.
      * rewrite <- app_assoc, !List.filter_app. simpl.
        rewrite chapter_marker_is_marker, Htext. simpl.
        by rewrite <- app_assoc.
      * rewrite List.filter_app. simpl. rewrite Htext. simpl.
        by rewrite <- app_assoc.
    + destruct st' as [n1 ft1].
      apply (process_item_no_markup _ _ _ Hm) in Hstep as [= -> ->].
      apply IH.
Qed.
End LoopFacts.

(** X6.  In a run of the loop that went through, the fragments that are no
    markers are the title line and then the texts of the kept items, one
    for each, in the order of the items. *)
Theorem section_texts_in_order `{Platform}
    (book_title : str) (items : list EpubItem) (n : Z) (full_text : list str) :
  convert_items book_title items = inr (n, full_text) ->
  List.filter (fun frag => negb (is_chapter_marker frag)) full_text
    = title_line book_title :: omap kept_text items.
Proof. intros Hrun. by apply for_each_texts in Hrun. Qed.

(** X7.  An item that is no document is passed over whatever its content is,
    decodable or not: the run is the run without it. *)
Theorem other_items_ignored `{Platform}
    (book_title : str) (pre post : list EpubItem) (item : EpubItem) :
  item_type item <> ITEM_DOCUMENT ->
  convert_items book_title (pre ++ item :: post)
    = convert_items book_title (pre ++ post).
Proof.
  intros Hother. unfold convert_items. rewrite !for_each_app.
  destruct (for_each process_item _ pre) as [e|st]; [done|].
  simpl. rewrite passed_over_skip; [done|by left].
Qed.

(** X8.  A book that has a title and whose items are all passed over gives the
    title line and nothing else, also when it has no item at all; of
    several title entries the first is taken. *)
Theorem front_matter_only `{Platform}
    (book : EpubBook) (book_title : str) (attrs : list (str * str))
    (more : list (str * list (str * str))) :
  dc_title book = (book_title, attrs) :: more ->
  Forall passed_over (book_items book) ->
  render book = inr (book_title, title_line book_title).
Proof.
  intros Htitle Hitems. unfold render, convert_items. rewrite Htitle. simpl.
  by rewrite (for_each_skip _ _ Hitems).
Qed.

(** X9.  A document item whose content does not decode ends the run with the
    error of the codec, whatever the items after it are: [main] reports it
    and exits with 1, and the file tree is as it was, no directory made and
    no file opened. *)
Theorem undecodable_item_aborts `{Platform}
    (a : args) (w : world) (book : EpubBook) (size : Z) (book_title : str)
    (attrs : list (str * str)) (more : list (str * list (str * str)))
    (pre post : list EpubItem) (item : EpubItem) (st : Z * list str)
    (e : exn) :
  entry_at w (abspath (input a)) = Some (EpubFile book size) ->
  dc_title book = (book_title, attrs) :: more ->
  book_items book = pre ++ item :: post ->
  convert_items book_title pre = inr st ->
  item_type item = ITEM_DOCUMENT ->
  utf8_decode (item_content item) = inl e ->
  epub_to_text (input a) (output a) w = (inl e, after_read (input a) w)
  /\ main a w
     = ({| stdout := []; stderr := [py "Error: " ++ exn_str e];
           exit_code := 1 |}, after_read (input a) w)
  /\ fs (after_read (input a) w) = fs w.
Proof.
  intros Hin Htitle Hitems Hpre Htype Hdec.
  assert (render book = inl e) as Hrender.
  { unfold render. rewrite Htitle, Hitems. simpl.
    unfold convert_items in *. rewrite for_each_app, Hpre. simpl.
    by rewrite (process_item_undecodable _ _ _ Htype Hdec). }
  assert (epub_to_text (input a) (output a) w
          = (inl e, after_read (input a) w)) as Hrun.
  { unfold epub_to_text, io_bind.
    rewrite (path_exists_Some _ _ _ Hin). simpl.
    unfold read_epub. rewrite Hin. unfold io_lift. by rewrite Hrender. }
  split; [done|]. split; [|done]. unfold main. by rewrite Hrun.
Qed.

(** X10.  After a run that ended well the file begins with the title line of the
    first title entry of the book, and the message names that title and
    the output path as it was given. *)
Theorem output_begins_with_title `{Platform}
    (epub_path output_path : str) (w : world) (msg : str) (w' : world) :
  epub_to_text epub_path output_path w = (inr msg, w') ->
  exists book size book_title attrs more rest,
    entry_at w (abspath epub_path) = Some (EpubFile book size)
    /\ dc_title book = (book_title, attrs) :: more
    /\ msg = py "Successfully converted '" ++ book_title
               ++ py "' to text format at " ++ output_path
    /\ destination output_path w'
       = Some (TextFile (py "# " ++ book_title ++ [nl; nl] ++ rest)).
Proof.
  intros (book & size & book_title & text & Hin & Hr & -> & Hd)
    %epub_to_text_written.
  apply render_inr in Hr as (attrs & more & n & ft & Htitle & Hc & ->).
  apply for_each_fragments in Hc as (added & -> & _).
  destruct (join_head [nl] (title_line book_title) added) as [rest Hrest].
  exists book, size, book_title, attrs, more, rest.
  split; [done|]. split; [done|]. split; [done|].
  rewrite Hd.
  change ([title_line book_title] ++ added)
    with (title_line book_title :: added).
  rewrite Hrest. unfold title_line. by rewrite <- !app_assoc.
Qed.

(* ===================================================================== *)
(** * More on the normalisation *)
(* ===================================================================== *)

Lemma visible_chars_app a b :
  visible_chars (a ++ b) = visible_chars a ++ visible_chars b.
Proof. apply List.filter_app. Qed.

Lemma visible_chars_lstrip s : visible_chars (lstrip s) = visible_chars s.
Proof.
  induction s as [|c s IH]; simpl; [done|].
  destruct (is_space c) eqn:E; simpl; [done|]. by rewrite E.
Qed.

Lemma visible_chars_strip s : visible_chars (strip s) = visible_chars s.
Proof.
  unfold strip, rstrip, visible_chars.
  rewrite List.filter_rev. fold (visible_chars (lstrip (rev (lstrip s)))).
  rewrite visible_chars_lstrip. unfold visible_chars.
  rewrite List.filter_rev, rev_involutive. apply visible_chars_lstrip.
Qed.

Lemma visible_chars_sub_ws fuel s :
  (length s < fuel)%nat ->
  visible_chars (sub_from fuel ws_run_re [space] s) = visible_chars s.
Proof.
  revert s. induction fuel as [|fuel IH]; intros s Hlen; [lia|].
  simpl. rewrite match_ws_run. destruct s as [|c s]; [done|].
  simpl in Hlen. destruct (is_space c) eqn:Ec.
  - pose proof (lstrip_length s) as Hl.
    replace (length (lstrip s) <? length (c :: s))%nat with true
      by (symmetry; apply Nat.ltb_lt; simpl; lia).
    simpl. rewrite Ec. simpl. rewrite IH by lia. apply visible_chars_lstrip.
  - simpl. rewrite Ec. simpl. by rewrite IH by lia.
Qed.

Lemma sub_ws_length fuel s :
  (length s < fuel)%nat ->
  (length (sub_from fuel ws_run_re [space] s) <= length s)%nat.
Proof.
  revert s. induction fuel as [|fuel IH]; intros s Hlen; [lia|].
  simpl. rewrite match_ws_run. destruct s as [|c s]; [done|].
  simpl in Hlen. destruct (is_space c).
  - pose proof (lstrip_length s) as Hl.
    replace (length (lstrip s) <? length (c :: s))%nat with true
      by (symmetry; apply Nat.ltb_lt; simpl; lia).
    simpl. specialize (IH (lstrip s)). lia.
  - simpl. specialize (IH s). lia.
Qed.

Lemma visible_chars_nil s :
  visible_chars s = [] <-> forallb is_space s = true.
Proof.
  induction s as [|c s IH]; simpl; [done|].
  destruct (is_space c); simpl; [done|]. split; done.
Qed.

Lemma trimmed_visible_nil s : trimmed s -> visible_chars s = [] -> s = [].
Proof.
  intros [Hl _]. destruct s as [|c s]; [done|].
  simpl in *. by rewrite Hl.
Qed.

Lemma visible_chars_normalize s :
  visible_chars (normalize_ws s) = visible_chars s.
Proof.
  rewrite normalize_ws_eq, visible_chars_strip.
  unfold re_sub. apply visible_chars_sub_ws. lia.
Qed.

(** X11.  The normalisation keeps every character that is not whitespace, in
    its place among the others: it only takes whitespace out or puts a
    [' '] for it. *)
Theorem normalize_keeps_visible (s : str) :
  List.filter (fun c => negb (is_space c)) (normalize_ws s)
    = List.filter (fun c => negb (is_space c)) s.
Proof. apply visible_chars_normalize. Qed.

(** X12.  A normalised text has no whitespace at either end, its only
    whitespace character is [' '], whatever whitespace the input had, and
    it is not longer than the input. *)
Theorem normalize_ws_shape (s : str) :
  trimmed (normalize_ws s)
  /\ (forall c, c ∈ normalize_ws s -> is_space c = true -> c = space)
  /\ (length (normalize_ws s) <= length s)%nat.
Proof.
  split; [apply normalize_ws_trimmed|]. split.
  - intros c. apply single_spaced_space, normalize_ws_single_spaced.
  - rewrite normalize_ws_eq. etrans; [apply strip_length|].
    unfold re_sub. apply sub_ws_length. lia.
Qed.

(** X13.  The normalised text is empty exactly when the input is empty or all
    whitespace. *)
Theorem normalize_ws_empty (s : str) :
  normalize_ws s = [] <-> forallb is_space s = true.
Proof.
  rewrite <- visible_chars_nil, <- (visible_chars_normalize s). split.
  - by intros ->.
  - apply trimmed_visible_nil, normalize_ws_trimmed.
Qed.

(* ===================================================================== *)
(** * The numbers in the markers *)
(* ===================================================================== *)

Lemma py_inj s1 s2 : py s1 = py s2 -> s1 = s2.
Proof.
  unfold py. intros Heq.
  rewrite <- (String.string_of_list_ascii_of_string s1).
  rewrite <- (String.string_of_list_ascii_of_string s2). f_equal.
  revert Heq.
  generalize (String.list_ascii_of_string s1) (String.list_ascii_of_string s2).
  induction l as [|a l IH]; intros [|b l']; simpl; try done.
  intros [= Hab Hl]. f_equal; [|by apply IH].
  by rewrite <- (ascii_N_embedding a), <- (ascii_N_embedding b), Hab.
Qed.

Lemma str_of_int_inj n1 n2 : str_of_int n1 = str_of_int n2 -> n1 = n2.
Proof.
  assert (forall n, NilZero.int_of_string (NilZero.string_of_int (Z.to_int n))
                    = Some (Z.to_int n)) as Hback.
  { intros n. apply NilZero.isi; destruct n as [|p|p]; simpl; try done;
      intros [= Hp]; by apply (DecimalPos.Unsigned.to_uint_nonnil p). }
  intros Heq%py_inj. apply DecimalZ.to_int_inj.
  apply (f_equal NilZero.int_of_string) in Heq.
  rewrite !Hback in Heq. by injection Heq.
Qed.

Lemma digits_of_uint d :
  Forall (fun c => is_digit c = true) (py (NilEmpty.string_of_uint d)).
Proof. induction d; simpl; by constructor. Qed.

Lemma str_of_int_digits n :
  (0 <= n)%Z -> Forall (fun c => is_digit c = true) (str_of_int n).
Proof.
  intros Hn. unfold str_of_int. destruct n as [|p|p]; [| |lia].
  - by constructor.
  - simpl. destruct (Pos.to_uint p) as [|u|u|u|u|u|u|u|u|u|u];
      [by constructor|..];
      match goal with
      | |- context [NilZero.string_of_uint ?d] => apply (digits_of_uint d)
      end.
Qed.

(** Where a number ends in a string is determined by the string. *)
Lemma number_ends_once (d1 d2 r1 r2 : str) :
  Forall (fun c => is_digit c = true) d1 ->
  Forall (fun c => is_digit c = true) d2 ->
  ends_number r1 -> ends_number r2 ->
  d1 ++ r1 = d2 ++ r2 -> d1 = d2.
Proof.
  intros Hd1. revert d2. induction Hd1 as [|c d1 Hc _ IH]; intros d2 Hd2 Hr1 Hr2.
  - destruct Hd2 as [|c d2 Hc _]; [done|]. simpl. intros ->.
    simpl in Hr1. congruence.
  - destruct Hd2 as [|c' d2 Hc' Hd2]; simpl.
    + intros <-. simpl in Hr2. congruence.
    + intros [= <- Heq]. f_equal. by apply (IH d2).
Qed.

Lemma chapter_marker_inj n1 n2 t1 t2 :
  (0 <= n1)%Z -> (0 <= n2)%Z ->
  chapter_marker n1 t1 = chapter_marker n2 t2 -> n1 = n2.
Proof.
  intros Hn1 Hn2. unfold chapter_marker.
  assert (forall t, ends_number (py ": " ++ format_opt t ++ [nl; nl])) as Htitled
    by done.
  assert (ends_number [nl; nl]) as Hplain by done.
  destruct (opt_truthy t1), (opt_truthy t2);
    intros Heq; do 2 apply app_inv_head in Heq;
    apply str_of_int_inj;
    eapply number_ends_once; try apply Heq; try (by apply str_of_int_digits);
    done.
Qed.

(** X14.  In a run of the loop that went through no two markers are the same
    string: the markers carry different numbers, and where the number ends
    in a marker is plain from the marker. *)
Theorem chapter_markers_distinct `{Platform}
    (book_title : str) (items : list EpubItem) (n : Z) (full_text : list str) :
  convert_items book_title items = inr (n, full_text) ->
  NoDup (List.filter is_chapter_marker full_text).
Proof.
  intros Hrun. apply for_each_markers in Hrun as [Hm _].
  simpl in Hm. rewrite Hm. apply NoDup_alt. intros i j x Hi Hj.
  rewrite list_lookup_imap in Hi, Hj.
  destruct (List.filter kept_chapter items !! i) as [a|]; [|done].
  destruct (List.filter kept_chapter items !! j) as [b|]; [|done].
  simpl in Hi, Hj. injection Hi as <-. injection Hj as Hj.
  apply chapter_marker_inj in Hj; lia.
Qed.

(* ===================================================================== *)
(** * More runs on the sample books *)
(* ===================================================================== *)

Section MoreRuns.
#[local] Existing Instance Sample.platform.


Lemma run_makes_directories_witness :
  epub_to_text (input Cases.convert_verbose) (output Cases.convert_verbose)
    Sample.world0
  = (inr (success_message (py "Test Book") (output Cases.convert_verbose)),
     snd (epub_to_text (input Cases.convert_verbose)
            (output Cases.convert_verbose) Sample.world0))
  /\ take 2 (dirname (abspath (output Cases.convert_verbose)))
     = [py "out"; py "deep"]
  /\ entry_at Sample.world0 [py "out"; py "deep"] = None
  /\ entry_at (snd (epub_to_text (input Cases.convert_verbose)
                      (output Cases.convert_verbose) Sample.world0))
       (take 2 (dirname (abspath (output Cases.convert_verbose))))
     = Some Dir.
Proof.
  split; [vm_compute; reflexivity|]. split; [vm_compute; reflexivity|].
  split; [vm_compute; reflexivity|].
  apply (run_makes_directories (input Cases.convert_verbose)
           (output Cases.convert_verbose) Sample.world0
           (success_message (py "Test Book") (output Cases.convert_verbose))
           _ 2).
  vm_compute. reflexivity.
Defined.


Lemma verbose_report_witness :
  verbose Cases.convert_verbose = true
  /\ entry_at Sample.world0 (abspath (input Cases.convert_verbose))
     = Some (EpubFile Sample.book 4096)
  /\ render Sample.book = inr (py "Test Book", join [nl] Sample.fragments)
  /\ epub_to_text (input Cases.convert_verbose) (output Cases.convert_verbose)
       Sample.world0
     = (inr (success_message (py "Test Book") (output Cases.convert_verbose)),
        snd (epub_to_text (input Cases.convert_verbose)
               (output Cases.convert_verbose) Sample.world0))
  /\ main Cases.convert_verbose Sample.world0
     = ({| stdout := [py "Successfully converted '" ++ py "Test Book"
                        ++ py "' to text format at "
                        ++ output Cases.convert_verbose;
                      [nl] ++ py "Input file: " ++ input Cases.convert_verbose;
                      py "Output file: " ++ output Cases.convert_verbose;
                      py "File size: "
                        ++ str_of_int
                             (utf8_size (on_disk (join [nl] Sample.fragments)))
                        ++ py " bytes"];
           stderr := [];
           exit_code := 0 |},
        snd (epub_to_text (input Cases.convert_verbose)
               (output Cases.convert_verbose) Sample.world0)).
Proof.
  split; [reflexivity|]. split; [vm_compute; reflexivity|].
  split; [vm_compute; reflexivity|]. split; [vm_compute; reflexivity|].
  apply (verbose_report Cases.convert_verbose Sample.world0 Sample.book 4096
           (py "Test Book") (join [nl] Sample.fragments)
           (success_message (py "Test Book") (output Cases.convert_verbose))).
  - reflexivity.
  - vm_compute. reflexivity.
  - vm_compute. reflexivity.
  - vm_compute. reflexivity.
  - by repeat constructor.
Defined.

(** The report of the sample: the size is that of the 698 characters of
    the text, all of them ASCII. *)
Example sample_verbose_run :
  stdout (fst (main Cases.convert_verbose Sample.world0))
  = [py "Successfully converted 'Test Book' to text format at out/deep/er/test.txt";
     [nl] ++ py "Input file: books/test.epub";
     py "Output file: out/deep/er/test.txt";
     py "File size: 698 bytes"].
Proof. vm_compute. reflexivity. Qed.

Lemma section_texts_in_order_witness :
  convert_items (py "Test Book") (book_items Sample.book)
    = inr (4%Z, Sample.fragments)
  /\ List.filter (fun frag => negb (is_chapter_marker frag)) Sample.fragments
     = title_line (py "Test Book") :: omap kept_text (book_items Sample.book).
Proof.
  split; [vm_compute; reflexivity|].
  apply (section_texts_in_order (py "Test Book") (book_items Sample.book) 4%Z).
  vm_compute. reflexivity.
Defined.

Lemma other_items_ignored_witness :
  item_type Sample.picture <> ITEM_DOCUMENT
  /\ utf8_decode (item_content Sample.picture)
     = inl (Exn UnicodeDecodeError
              (py "'utf-8' codec can't decode byte: invalid start byte"))
  /\ convert_items (py "Test Book")
       ([Sample.document Sample.doc_intro]
          ++ Sample.picture :: [Sample.document Sample.doc_one])
     = convert_items (py "Test Book")
         ([Sample.document Sample.doc_intro]
            ++ [Sample.document Sample.doc_one]).
Proof.
  split; [vm_compute; discriminate|]. split; [vm_compute; reflexivity|].
  apply (other_items_ignored (py "Test Book")
           [Sample.document Sample.doc_intro]
           [Sample.document Sample.doc_one] Sample.picture).
  vm_compute. discriminate.
Defined.

Lemma front_matter_only_witness :
  dc_title Cases.pamphlet = (py "Pamphlet", []) :: [(py "A second title", [])]
  /\ Forall passed_over (book_items Cases.pamphlet)
  /\ render Cases.pamphlet = inr (py "Pamphlet", title_line (py "Pamphlet")).
Proof.
  assert (Forall passed_over (book_items Cases.pamphlet)) as Hitems.
  { constructor; [left; vm_compute; discriminate|].
    constructor; [|constructor].
    right. exists (Sample.soup_markup Sample.doc_nav).
    split; [vm_compute; reflexivity|vm_compute; lia]. }
  split; [reflexivity|]. split; [exact Hitems|].
  apply (front_matter_only Cases.pamphlet (py "Pamphlet") []
           [(py "A second title", [])]); [reflexivity|exact Hitems].
Defined.

Lemma undecodable_item_aborts_witness :
  entry_at Cases.world1 (abspath (input Cases.convert_broken))
    = Some (EpubFile Cases.broken_book 1024)
  /\ dc_title Cases.broken_book = (py "Broken", []) :: []
  /\ book_items Cases.broken_book
     = [Sample.document Sample.doc_intro]
         ++ Cases.broken :: [Sample.document Sample.doc_one]
  /\ convert_items (py "Broken") [Sample.document Sample.doc_intro]
     = inr (1%Z, [title_line (py "Broken"); py "Intro" ++ Sample.filler])
  /\ item_type Cases.broken = ITEM_DOCUMENT
  /\ utf8_decode (item_content Cases.broken)
     = inl (Exn UnicodeDecodeError
              (py "'utf-8' codec can't decode byte: invalid start byte"))
  /\ main Cases.convert_broken Cases.world1
     = ({| stdout := [];
           stderr := [py "Error: 'utf-8' codec can't decode byte: invalid start byte"];
           exit_code := 1 |},
        World Cases.disk None [py "books/broken.epub"]).
Proof.
  split; [vm_compute; reflexivity|]. split; [reflexivity|].
  split; [reflexivity|]. split; [vm_compute; reflexivity|].
  split; [reflexivity|]. split; [vm_compute; reflexivity|].
  apply (undecodable_item_aborts Cases.convert_broken Cases.world1
           Cases.broken_book 1024 (py "Broken") [] []
           [Sample.document Sample.doc_intro]
           [Sample.document Sample.doc_one] Cases.broken
           (1%Z, [title_line (py "Broken"); py "Intro" ++ Sample.filler])
           (Exn UnicodeDecodeError
              (py "'utf-8' codec can't decode byte: invalid start byte"))).
  - vm_compute. reflexivity.
  - reflexivity.
  - reflexivity.
  - vm_compute. reflexivity.
  - reflexivity.
  - vm_compute. reflexivity.
Defined.

Lemma output_begins_with_title_witness :
  epub_to_text (input Sample.convert_book) (output Sample.convert_book)
    Sample.world0
  = (inr (success_message (py "Test Book") (output Sample.convert_book)),
     snd (epub_to_text (input Sample.convert_book)
            (output Sample.convert_book) Sample.world0))
  /\ exists book size book_title attrs more rest,
       entry_at Sample.world0 (abspath (input Sample.convert_book))
         = Some (EpubFile book size)
       /\ dc_title book = (book_title, attrs) :: more
       /\ success_message (py "Test Book") (output Sample.convert_book)
          = py "Successfully converted '" ++ book_title
              ++ py "' to text format at " ++ output Sample.convert_book
       /\ destination (output Sample.convert_book)
            (snd (epub_to_text (input Sample.convert_book)
                    (output Sample.convert_book) Sample.world0))
          = Some (TextFile (py "# " ++ book_title ++ [nl; nl] ++ rest)).
Proof.
  split; [vm_compute; reflexivity|].
  apply (output_begins_with_title (input Sample.convert_book)
           (output Sample.convert_book) Sample.world0).
  vm_compute. reflexivity.
Defined.

Lemma chapter_markers_distinct_witness :
  convert_items (py "Test Book") (book_items Sample.book)
    = inr (4%Z, Sample.fragments)
  /\ NoDup (List.filter is_chapter_marker Sample.fragments).
Proof.
  split; [vm_compute; reflexivity|].
  apply (chapter_markers_distinct (py "Test Book") (book_items Sample.book)
           4%Z Sample.fragments).
  vm_compute. reflexivity.
Defined.
End MoreRuns.


(* ===================================================================== *)
(** * Runs at the corners *)
(* ===================================================================== *)

Section CornerRuns.
#[local] Existing Instance Corner.platform.


(** On a standard output that takes ASCII only, the conversion of a book
    whose title is not ASCII ends well and the file is written, but the
    [print] of the message raises: [main] reports that and exits with 1. *)
Example refused_print_after_conversion :
  let '(out, w) := main Corner.convert_umlaut Corner.world1 in
  stdout out = []
  /\ stderr out
     = [py "Error: 'ascii' codec can't encode character: ordinal not in range(128)"]
  /\ exit_code out = 1%Z
  /\ exists text, entry_at w [py "out"; py "umlaut.txt"] = Some (TextFile text).
Proof. vm_compute. repeat split. by eexists. Qed.

(** Where a line ends in CR LF the size reported counts two bytes for
    each of the eight newlines of the text of 211 characters. *)
Example size_counts_line_ends :
  stdout (fst (main Corner.convert_plain Corner.world1))
  = [py "Successfully converted 'Plain' to text format at out/plain.txt";
     [nl] ++ py "Input file: books/plain.epub";
     py "Output file: out/plain.txt";
     py "File size: 219 bytes"].
Proof. vm_compute. reflexivity. Qed.
End CornerRuns.

Section InPlace.
#[local] Existing Instance Sample.platform.

(** When the output path names the input, the book is overwritten by its
    text and the run ends well. *)
Example output_over_input :
  let '(out, w) := main Corner.convert_in_place Sample.world0 in
  exit_code out = 0%Z
  /\ entry_at Sample.world0 [py "books"; py "test.epub"]
     = Some (EpubFile Sample.book 4096)
  /\ entry_at w [py "books"; py "test.epub"]
     = Some (TextFile (join [nl] Sample.fragments)).
Proof. vm_compute. repeat split. Qed.
End InPlace.
